(** * Agent runtime of openwork: a shallow embedding of
      [src/main/agent/runtime.ts]

    The TypeScript module keeps two module-level variables ([checkpointer]
    and [globalWorkspacePath]) and wires a model handle, the checkpoint
    store singleton and a workspace backend factory into [createDeepAgent].
    The embedding threads these variables, an allocation counter for object
    identity and the trace of observable effects through a state-and-exception
    monad.  An [await] is sequential composition: every statement below is
    about calls that run one after the other. *)

From Stdlib Require Import String Ascii List Bool Arith Lia.
Import ListNotations.
Local Open Scope string_scope.
Local Open Scope list_scope.

(** ** JavaScript values *)

(** An optional property or parameter [x?: T]: absent, or a value of [T].
    A [string | null] is an [option string] whose [None] is [null]. *)
Inductive Optional (A : Type) : Type :=
| undefined : Optional A
| defined (a : A) : Optional A.
Arguments undefined {A}.
Arguments defined {A} a.

(** A thrown [Error] object: the constructor's name and the message. *)
Record JsError : Type := mkJsError { error_name : string; error_message : string }.

(** [new Error(msg)] *)
Definition Error (msg : string) : JsError := mkJsError "Error" msg.

(** [ToBoolean] on a string: only the empty string is falsy. *)
Definition truthy (s : string) : bool :=
  match s with
  | EmptyString => false
  | String _ _ => true
  end.

(** [ToBoolean] on [string | null] and on [string | undefined]. *)
Definition truthy_opt (o : option string) : bool :=
  match o with
  | Some s => truthy s
  | None => false
  end.

(** [s.startsWith(p)].  The three search strings of the module are ASCII, so
    comparing bytes agrees with comparing UTF-16 code units. *)
Definition startsWith (s p : string) : bool := String.prefix p s.

(** ** Objects the module builds or receives *)

(** An [SqlJsSaver] instance: its identity (the allocation that made it)
    and the database path given to the constructor. *)
Record SqlJsSaver : Type := mkSaver { saver_ref : nat; saver_dbPath : string }.

(** What [getModelInstance] returns: [ChatAnthropic | ChatOpenAI | string].
    A chat model is represented by the fields passed to its constructor. *)
Inductive ModelInstance : Type :=
| ChatAnthropic (model : string) (anthropicApiKey : option string)
| ChatOpenAI (model : string) (openAIApiKey : option string)
| ModelName (model : string).

(** [typeof model] *)
Definition typeof_model (m : ModelInstance) : string :=
  match m with
  | ModelName _ => "string"
  | _ => "object"
  end.

(** Modelled from the spec: [createSyncedBackendFactory] of
    [src/main/agent/synced-backend.ts] is not among the sources.  The spec
    (4.2, [configure(workspaceRootOrNull)]) has the backend select its mode
    from the root it is given, so a factory is represented by that root:
    [None] is state-only mode. *)
Record SyncedBackendFactory : Type := mkFactory { workspaceRoot : option string }.

(** The object literal passed to [createDeepAgent]. *)
Record DeepAgentParams : Type := mkParams {
  param_model : ModelInstance;
  param_checkpointer : SqlJsSaver;
  param_backend : SyncedBackendFactory
}.

(** [CreateAgentRuntimeOptions] *)
Record CreateAgentRuntimeOptions : Type := mkOptions {
  modelId : Optional string;
  workspacePath : Optional (option string)
}.

(** The default [{}] of the [options] parameter. *)
Definition emptyOptions : CreateAgentRuntimeOptions :=
  mkOptions undefined undefined.

(** The parameter [options: CreateAgentRuntimeOptions = {}] as the body
    sees it. *)
Definition optionsOrEmpty (options : Optional CreateAgentRuntimeOptions)
  : CreateAgentRuntimeOptions :=
  match options with
  | defined o => o
  | undefined => emptyOptions
  end.

(** ** Observable effects *)

Inductive LogArg : Type :=
| LStr (s : string)
| LBool (b : bool)
| LPath (p : option string).

Inductive Event : Type :=
| ConsoleLog (args : list LogArg)
| NewSqlJsSaver (c : SqlJsSaver)
| SaverInitialize (c : SqlJsSaver)
| SaverClose (c : SqlJsSaver)
| CallCreateSyncedBackendFactory (syncPath : option string)
| CallCreateDeepAgent (params : DeepAgentParams).

(** ** The collaborators outside the module

    [app.getPath] and [path.join] come from electron and node,
    [getDefaultModel] and [getApiKey] from [../ipc/models], the methods of
    [SqlJsSaver] from [../checkpointer/sqljs-saver] and [createDeepAgent] from
    the deepagents package.  An awaited method of a store resolves ([None])
    or rejects with an error, as the host decides for that instance. *)
Record Host (Agent : Type) : Type := mkHost {
  getPath : string -> string;
  join : string -> string -> string;
  getDefaultModel : string;
  getApiKey : string -> option string;
  initialize : SqlJsSaver -> option JsError;
  close : SqlJsSaver -> option JsError;
  createDeepAgent : DeepAgentParams -> Agent
}.
Arguments getPath {Agent} h _.
Arguments join {Agent} h _ _.
Arguments getDefaultModel {Agent} h.
Arguments getApiKey {Agent} h _.
Arguments initialize {Agent} h _.
Arguments close {Agent} h _.
Arguments createDeepAgent {Agent} h _.

(** ** State and the monad of the module *)

Record State : Type := mkState {
  checkpointer : option SqlJsSaver;      (* let checkpointer: SqlJsSaver | null *)
  globalWorkspacePath : option string;   (* let globalWorkspacePath: string | null *)
  allocated : nat;                       (* objects constructed so far *)
  trace : list Event                     (* effects, oldest first *)
}.

(** The module as it is loaded: both variables are [null]. *)
Definition initialState : State := mkState None None 0 [].

Inductive Result (A : Type) : Type :=
| Ok (a : A) : Result A
| Throw (e : JsError) : Result A.
Arguments Ok {A} a.
Arguments Throw {A} e.

Definition M (A : Type) : Type := State -> Result A * State.

Definition ret {A : Type} (a : A) : M A := fun s => (Ok a, s).

Definition throw {A : Type} (e : JsError) : M A := fun s => (Throw e, s).

(** State changes made before a throw stay. *)
Definition bind {A B : Type} (m : M A) (k : A -> M B) : M B :=
  fun s =>
    match m s with
    | (Ok a, s1) => k a s1
    | (Throw e, s1) => (Throw e, s1)
    end.

Declare Scope runtime_scope.
Delimit Scope runtime_scope with runtime.
Notation "x <- m ;; k" := (bind m (fun x => k))
  (at level 61, m at next level, right associativity) : runtime_scope.
Notation "m ;; k" := (bind m (fun _ => k))
  (at level 61, right associativity) : runtime_scope.
Local Open Scope runtime_scope.

Definition gets {A : Type} (f : State -> A) : M A := fun s => (Ok (f s), s).

Definition emit (e : Event) : M unit :=
  fun s => (Ok tt, mkState (checkpointer s) (globalWorkspacePath s)
                           (allocated s) (trace s ++ [e])).

(** [console.log(...)] *)
Definition log (args : list LogArg) : M unit := emit (ConsoleLog args).

Definition set_checkpointer (v : option SqlJsSaver) : M unit :=
  fun s => (Ok tt, mkState v (globalWorkspacePath s) (allocated s) (trace s)).

Definition set_globalWorkspacePath (v : option string) : M unit :=
  fun s => (Ok tt, mkState (checkpointer s) v (allocated s) (trace s)).

(** [new SqlJsSaver(dbPath)]: a fresh object. *)
Definition newSqlJsSaver (dbPath : string) : M SqlJsSaver :=
  fun s =>
    let c := mkSaver (allocated s) dbPath in
    (Ok c, mkState (checkpointer s) (globalWorkspacePath s)
                   (S (allocated s)) (trace s ++ [NewSqlJsSaver c])).

(** An awaited call of a method that resolves or rejects: the call is
    recorded, then its outcome decides. *)
Definition await (ev : Event) (outcome : option JsError) : M unit :=
  fun s =>
    let s1 := mkState (checkpointer s) (globalWorkspacePath s)
                      (allocated s) (trace s ++ [ev]) in
    match outcome with
    | None => (Ok tt, s1)
    | Some e => (Throw e, s1)
    end.

(** Running a computation [n] times in a row, each call on the state the one
    before left (a rejected call included), keeping every outcome. *)
Fixpoint callN {A : Type} (n : nat) (m : M A) (s : State) : list (Result A) * State :=
  match n with
  | 0 => ([], s)
  | S k =>
      let (r, s1) := m s in
      let (rs, s2) := callN k m s1 in
      (r :: rs, s2)
  end.

(** ** The functions of runtime.ts *)

Section Runtime.

Context {Agent : Type} (host : Host Agent).

(** [setWorkspacePath(path)] *)
Definition setWorkspacePath (path : option string) : M unit :=
  set_globalWorkspacePath path ;;
  log [LStr "[Runtime] Workspace path set to:"; LPath path].

(** [getWorkspacePath()] *)
Definition getWorkspacePath : M (option string) :=
  gets globalWorkspacePath.

(** The path of the database file, [join(app.getPath('userData'),
    'langgraph.sqlite')]. *)
Definition dbPath : string :=
  join host (getPath host "userData") "langgraph.sqlite".

(** [getCheckpointer()].  The closing [return checkpointer] reads the
    variable the branch has just assigned, so each branch returns its own
    object. *)
Definition getCheckpointer : M SqlJsSaver :=
  cur <- gets checkpointer ;;
  match cur with
  | Some c => ret c
  | None =>
      c <- newSqlJsSaver dbPath ;;
      set_checkpointer (Some c) ;;
      await (SaverInitialize c) (initialize host c) ;;
      ret c
  end.

(** [modelId || getDefaultModel()] *)
Definition effectiveModel (modelId : Optional string) : string :=
  match modelId with
  | defined m => if truthy m then m else getDefaultModel host
  | undefined => getDefaultModel host
  end.

(** [getModelInstance(modelId)] *)
Definition getModelInstance (modelId : Optional string) : M ModelInstance :=
  let model := effectiveModel modelId in
  log [LStr "[Runtime] Using model:"; LStr model] ;;
  if startsWith model "claude" then
    let apiKey := getApiKey host "anthropic" in
    log [LStr "[Runtime] Anthropic API key present:"; LBool (truthy_opt apiKey)] ;;
    if negb (truthy_opt apiKey) then
      throw (Error "Anthropic API key not configured")
    else
      ret (ChatAnthropic model apiKey)
  else if startsWith model "gpt" then
    let apiKey := getApiKey host "openai" in
    log [LStr "[Runtime] OpenAI API key present:"; LBool (truthy_opt apiKey)] ;;
    if negb (truthy_opt apiKey) then
      throw (Error "OpenAI API key not configured")
    else
      ret (ChatOpenAI model apiKey)
  else if startsWith model "gemini" then
    throw (Error "Gemini support coming soon")
  else
    ret (ModelName model).

(** [createSyncedBackendFactory(syncPath)] *)
Definition createSyncedBackendFactory (syncPath : option string) : M SyncedBackendFactory :=
  emit (CallCreateSyncedBackendFactory syncPath) ;;
  ret (mkFactory syncPath).

(** [createDeepAgent(params)] *)
Definition callCreateDeepAgent (params : DeepAgentParams) : M Agent :=
  emit (CallCreateDeepAgent params) ;;
  ret (createDeepAgent host params).

(** [workspacePath !== undefined ? workspacePath : globalWorkspacePath] *)
Definition selectSyncPath (workspacePath : Optional (option string))
                          (global : option string) : option string :=
  match workspacePath with
  | defined p => p
  | undefined => global
  end.

(** [createAgentRuntime(options = {})] *)
Definition createAgentRuntime (options : Optional CreateAgentRuntimeOptions) : M Agent :=
  let options := optionsOrEmpty options in
  log [LStr "[Runtime] Creating agent runtime..."] ;;
  model <- getModelInstance (modelId options) ;;
  log [LStr "[Runtime] Model instance created:"; LStr (typeof_model model)] ;;
  saver <- getCheckpointer ;;
  log [LStr "[Runtime] Checkpointer ready"] ;;
  global <- gets globalWorkspacePath ;;
  let syncPath := selectSyncPath (workspacePath options) global in
  log [LStr "[Runtime] Sync path:"; LPath syncPath] ;;
  backend <- createSyncedBackendFactory syncPath ;;
  agent <- callCreateDeepAgent (mkParams model saver backend) ;;
  log [LStr "[Runtime] Deep agent created with";
       LStr (if truthy_opt syncPath then "disk sync" else "state-only storage")] ;;
  ret agent.

(** [closeRuntime()] *)
Definition closeRuntime : M unit :=
  cur <- gets checkpointer ;;
  match cur with
  | Some c =>
      await (SaverClose c) (close host c) ;;
      set_checkpointer None
  | None => ret tt
  end.

End Runtime.

(** ** Reading a run *)

(** The state [s] with the events [evs] appended to its trace. *)
Definition extend (s : State) (evs : list Event) : State :=
  mkState (checkpointer s) (globalWorkspacePath s) (allocated s) (trace s ++ evs).

Definition is_log (e : Event) : bool :=
  match e with
  | ConsoleLog _ => true
  | _ => false
  end.

(** The calls a trace records, console output left out. *)
Definition calls (tr : list Event) : list Event :=
  filter (fun e => negb (is_log e)) tr.

Definition is_new (e : Event) : bool :=
  match e with
  | NewSqlJsSaver _ => true
  | _ => false
  end.

Definition is_initialize (e : Event) : bool :=
  match e with
  | SaverInitialize _ => true
  | _ => false
  end.

Definition is_close (e : Event) : bool :=
  match e with
  | SaverClose _ => true
  | _ => false
  end.

(** The calls of [createSyncedBackendFactory] a trace records. *)
Definition factoryCalls (tr : list Event) : list Event :=
  filter (fun e => match e with
                   | CallCreateSyncedBackendFactory _ => true
                   | _ => false
                   end) tr.

(** How many events of a trace satisfy [p]. *)
Definition count (p : Event -> bool) (tr : list Event) : nat :=
  List.length (filter p tr).

(** Every store the module holds was allocated by it. *)
Definition allocated_ok (s : State) : Prop :=
  forall c, checkpointer s = Some c -> saver_ref c < allocated s.

(** The branches of the dispatch in [getModelInstance]. *)
Inductive Provider : Type :=
| Anthropic
| OpenAI
| Gemini
| Delegated.

(** The dispatch as the spec words it, a switch over string prefixes. *)
Definition providerOfPrefix (model : string) : Provider :=
  if String.prefix "claude" model then Anthropic
  else if String.prefix "gpt" model then OpenAI
  else if String.prefix "gemini" model then Gemini
  else Delegated.

(** The branch an outcome of [getModelInstance] left from: each branch has
    its own constructor or its own error message. *)
Definition branchTaken (r : Result ModelInstance) : option Provider :=
  match r with
  | Ok (ChatAnthropic _ _) => Some Anthropic
  | Ok (ChatOpenAI _ _) => Some OpenAI
  | Ok (ModelName _) => Some Delegated
  | Throw e =>
      if String.eqb (error_message e) "Anthropic API key not configured" then Some Anthropic
      else if String.eqb (error_message e) "OpenAI API key not configured" then Some OpenAI
      else if String.eqb (error_message e) "Gemini support coming soon" then Some Gemini
      else None
  end.

(** ** Two hosts to run the module on *)

(** A host whose stores open and close without error, with an Anthropic
    key and no OpenAI key.  An agent is the parameter record it was made
    from. *)
Definition demoHost : Host DeepAgentParams :=
  mkHost DeepAgentParams
    (fun _ => "/home/ada/.config/openwork")
    (fun a b => (a ++ "/" ++ b)%string)
    "claude-sonnet-4-5"
    (fun provider => if String.eqb provider "anthropic" then Some "sk-ant-demo" else None)
    (fun _ => None)
    (fun _ => None)
    (fun p => p).

(** A host with an OpenAI key only, whose database cannot be opened. *)
Definition brokenHost : Host DeepAgentParams :=
  mkHost DeepAgentParams
    (fun _ => "/readonly")
    (fun a b => (a ++ "/" ++ b)%string)
    "gpt-4o"
    (fun provider => if String.eqb provider "openai" then Some "sk-demo" else None)
    (fun _ => Some (mkJsError "StorageInitError" "unwritable location"))
    (fun _ => None)
    (fun p => p).

(** The store the first call of [getCheckpointer] makes on [demoHost]. *)
Definition demoSaver (ref : nat) : SqlJsSaver :=
  mkSaver ref "/home/ada/.config/openwork/langgraph.sqlite".

(** ** The checkpoint store

    [SqlJsSaver] lives in [src/main/checkpointer/sqljs-saver.ts], which is not
    among the sources: the store below follows sections 3 and 4.1 of the
    specification. *)

Module CheckpointStore.

(** Modelled from the spec: the [Checkpoint] of section 3, whose class
    [SqlJsSaver] stores it and is missing.  [Id] is the type of checkpoint
    identifiers, the two blobs are opaque. *)
Record Checkpoint (Id : Type) : Type := mkCheckpoint {
  threadId : string;
  checkpointId : Id;
  parentCheckpointId : option Id;
  state : string;
  metadata : string
}.
Arguments mkCheckpoint {Id} _ _ _ _ _.
Arguments threadId {Id} _.
Arguments checkpointId {Id} _.
Arguments parentCheckpointId {Id} _.
Arguments state {Id} _.
Arguments metadata {Id} _.

(** Modelled from the spec: the error of section 7 that the missing store
    raises once closed. *)
Inductive StoreError : Type :=
| StoreClosedError.

(** Modelled from the spec: the missing store's contents, the checkpoints in
    the order they were put, and whether [close()] has run. *)
Record Store (Id : Type) : Type := mkStore {
  rows : list (Checkpoint Id);
  closed : bool
}.
Arguments mkStore {Id} _ _.
Arguments rows {Id} _.
Arguments closed {Id} _.

Section Operations.

Context {Id : Type}.

(** The order on checkpoint identifiers, [leb a b] for [a <= b]. *)
Variable leb : Id -> Id -> bool.

(** Modelled from the spec: what the missing [initialize()] leaves, an
    open store without checkpoints. *)
Definition empty : Store Id := mkStore [] false.

(** Modelled from the spec: the missing [put(checkpoint)], which appends
    a new checkpoint, and fails after [close()]. *)
Definition put (c : Checkpoint Id) (st : Store Id) : StoreError + Store Id :=
  if closed st then inl StoreClosedError
  else inr (mkStore (rows st ++ [c]) false).

(** Modelled from the spec: the scan behind the missing [getLatest], that
    keeps the checkpoint of the thread with the greatest identifier seen so
    far. *)
Fixpoint scanLatest (tid : string) (best : option (Checkpoint Id))
                    (l : list (Checkpoint Id)) : option (Checkpoint Id) :=
  match l with
  | [] => best
  | c :: rest =>
      if String.eqb (threadId c) tid then
        match best with
        | Some b =>
            if leb (checkpointId b) (checkpointId c)
            then scanLatest tid (Some c) rest
            else scanLatest tid best rest
        | None => scanLatest tid (Some c) rest
        end
      else scanLatest tid best rest
  end.

(** Modelled from the spec: the missing [getLatest(threadId)], the
    checkpoint with the greatest [checkpointId] of the thread, or not
    found ([None]); it fails after [close()]. *)
Definition getLatest (tid : string) (st : Store Id)
  : StoreError + option (Checkpoint Id) :=
  if closed st then inl StoreClosedError
  else inr (scanLatest tid None (rows st)).

(** Modelled from the spec: the missing [close()], the release of the
    storage handle. *)
Definition closeStore (st : Store Id) : Store Id := mkStore (rows st) true.

(** A sequence of [put] calls, in the order submitted. *)
Fixpoint putAll (cs : list (Checkpoint Id)) (st : Store Id) : StoreError + Store Id :=
  match cs with
  | [] => inr st
  | c :: rest =>
      match put c st with
      | inr st1 => putAll rest st1
      | inl e => inl e
      end
  end.

(** [c] has the greatest identifier among the checkpoints of thread [tid]
    in [l], and is one of them. *)
Definition greatestOf (tid : string) (l : list (Checkpoint Id))
                      (c : Checkpoint Id) : Prop :=
  In c l /\ threadId c = tid /\
  forall d, In d l -> threadId d = tid ->
            leb (checkpointId d) (checkpointId c) = true.

(** What the scan of thread [tid] knows after it has read [seen]: the
    greatest checkpoint of the thread, or that the thread has none. *)
Definition summarizes (tid : string) (seen : list (Checkpoint Id))
                      (best : option (Checkpoint Id)) : Prop :=
  match best with
  | Some b => greatestOf tid seen b
  | None => forall d, In d seen -> threadId d <> tid
  end.

End Operations.

(** A checkpoint of thread 't1' with a numeric identifier. *)
Definition cp (n : nat) : Checkpoint nat := mkCheckpoint "t1" n None "state" "meta".

End CheckpointStore.

(** ** Sessions: the module as its callers drive it *)

(** A host whose stores open but refuse to close. *)
Definition stuckHost : Host DeepAgentParams :=
  mkHost DeepAgentParams
    (fun _ => "/home/ada/.config/openwork")
    (fun a b => (a ++ "/" ++ b)%string)
    "claude-sonnet-4-5"
    (fun provider => if String.eqb provider "anthropic" then Some "sk-ant-demo" else None)
    (fun _ => None)
    (fun _ => Some (mkJsError "StorageIOError" "database is locked"))
    (fun p => p).

(** One call of an exported function of runtime.ts. *)
Inductive Call : Type :=
| DoSetWorkspacePath (path : option string)
| DoGetWorkspacePath
| DoGetCheckpointer
| DoCreateAgentRuntime (options : Optional CreateAgentRuntimeOptions)
| DoCloseRuntime.

(** The state a call leaves, whether it returned or threw. *)
Definition perform {Agent : Type} (h : Host Agent) (c : Call) (s : State) : State :=
  match c with
  | DoSetWorkspacePath p => snd (setWorkspacePath p s)
  | DoGetWorkspacePath => snd (getWorkspacePath s)
  | DoGetCheckpointer => snd (getCheckpointer h s)
  | DoCreateAgentRuntime options => snd (createAgentRuntime h options s)
  | DoCloseRuntime => snd (closeRuntime h s)
  end.

(** Any calls, one after the other, by a caller that goes on after a
    rejected call. *)
Definition session {Agent : Type} (h : Host Agent) (cs : list Call) (s : State) : State :=
  fold_left (fun s c => perform h c s) cs s.

(** The stores a trace constructs, initializes and closes, in order. *)
Definition constructed (tr : list Event) : list SqlJsSaver :=
  flat_map (fun e => match e with NewSqlJsSaver c => [c] | _ => [] end) tr.

Definition initialized (tr : list Event) : list SqlJsSaver :=
  flat_map (fun e => match e with SaverInitialize c => [c] | _ => [] end) tr.

Definition closedStores (tr : list Event) : list SqlJsSaver :=
  flat_map (fun e => match e with SaverClose c => [c] | _ => [] end) tr.

(** The store in the singleton slot, as a list. *)
Definition held (s : State) : list SqlJsSaver :=
  match checkpointer s with
  | Some c => [c]
  | None => []
  end.

(** Events that touch no store. *)
Definition quiet (evs : list Event) : Prop :=
  constructed evs = [] /\ initialized evs = [] /\ closedStores evs = [].

(** The argument of the last [setWorkspacePath] among [cs], or [p0] when
    there is none. *)
Definition lastWorkspacePath (cs : list Call) (p0 : option string) : option string :=
  fold_left (fun p c => match c with DoSetWorkspacePath q => q | _ => p end) cs p0.

(** What every state of a session satisfies: each store constructed was
    initialized at once, stores have their own identities below the
    allocation counter and the one database path, the store held is one of
    them, and any other one has seen [close]. *)
Definition consistent {Agent : Type} (h : Host Agent) (s : State) : Prop :=
  initialized (trace s) = constructed (trace s) /\
  Forall (fun c => saver_ref c < allocated s) (constructed (trace s)) /\
  NoDup (map saver_ref (constructed (trace s))) /\
  Forall (fun c => saver_dbPath c = dbPath h) (constructed (trace s)) /\
  (forall c, checkpointer s = Some c -> In c (constructed (trace s))) /\
  (forall c, In c (constructed (trace s)) ->
             checkpointer s = Some c \/ In c (closedStores (trace s))).

(** * Properties of the runtime module *)

(** ** Running the primitives *)

Lemma extend_nil (s : State) : extend s [] = s.
Proof. destruct s; unfold extend; simpl; rewrite app_nil_r; reflexivity. Qed.

Lemma extend_extend (s : State) (l1 l2 : list Event) :
  extend (extend s l1) l2 = extend s (l1 ++ l2).
Proof. unfold extend; simpl; rewrite app_assoc; reflexivity. Qed.

Lemma log_run (args : list LogArg) (s : State) :
  log args s = (Ok tt, extend s [ConsoleLog args]).
Proof. reflexivity. Qed.

Lemma calls_app (l1 l2 : list Event) : calls (l1 ++ l2) = calls l1 ++ calls l2.
Proof. unfold calls; apply filter_app. Qed.

Lemma count_app (p : Event -> bool) (l1 l2 : list Event) :
  count p (l1 ++ l2) = count p l1 + count p l2.
Proof. unfold count; rewrite filter_app, length_app; reflexivity. Qed.

(** ** The checkpointer singleton *)

Section Singleton.

Context {Agent : Type} (h : Host Agent).

(** The store a call of [getCheckpointer] constructs in state [s]. *)
Let fresh (s : State) : SqlJsSaver := mkSaver (allocated s) (dbPath h).

Lemma getCheckpointer_held (s : State) (c : SqlJsSaver) :
  checkpointer s = Some c -> getCheckpointer h s = (Ok c, s).
Proof.
  intros Hc; unfold getCheckpointer, bind, gets; rewrite Hc; reflexivity.
Qed.

Lemma getCheckpointer_create (s : State) :
  checkpointer s = None ->
  getCheckpointer h s =
    (match initialize h (fresh s) with
     | None => Ok (fresh s)
     | Some e => Throw e
     end,
     mkState (Some (fresh s)) (globalWorkspacePath s) (S (allocated s))
             (trace s ++ [NewSqlJsSaver (fresh s); SaverInitialize (fresh s)])).
Proof.
  intros Hc.
  unfold getCheckpointer, bind, gets, newSqlJsSaver, set_checkpointer, await, ret.
  rewrite Hc; simpl.
  rewrite <- app_assoc; simpl.
  unfold fresh; destruct (initialize h _); reflexivity.
Qed.

Lemma callN_held (n : nat) (s : State) (c : SqlJsSaver) :
  checkpointer s = Some c ->
  callN n (getCheckpointer h) s = (repeat (Ok c) n, s).
Proof.
  intros Hc; induction n as [|n IH]; simpl.
  - reflexivity.
  - rewrite (getCheckpointer_held s c Hc), IH; reflexivity.
Qed.

Lemma closeRuntime_idle (s : State) :
  checkpointer s = None -> closeRuntime h s = (Ok tt, s).
Proof.
  intros Hc; unfold closeRuntime, bind, gets; rewrite Hc; reflexivity.
Qed.

Lemma closeRuntime_held (s : State) (c : SqlJsSaver) :
  checkpointer s = Some c ->
  closeRuntime h s =
    match close h c with
    | None => (Ok tt, mkState None (globalWorkspacePath s) (allocated s)
                              (trace s ++ [SaverClose c]))
    | Some e => (Throw e, extend s [SaverClose c])
    end.
Proof.
  intros Hc; unfold closeRuntime, bind, gets, await, set_checkpointer.
  rewrite Hc; simpl.
  destruct (close h c); reflexivity.
Qed.

(** No operation of the module makes the slot hold a store that was not
    allocated. *)
Lemma getCheckpointer_allocated_ok (s : State) :
  allocated_ok s -> allocated_ok (snd (getCheckpointer h s)).
Proof.
  intros Hok; destruct (checkpointer s) as [c|] eqn:Hc.
  - rewrite (getCheckpointer_held s c Hc); exact Hok.
  - rewrite (getCheckpointer_create s Hc); simpl.
    intros c Heq; injection Heq as <-; simpl; lia.
Qed.

Lemma closeRuntime_allocated_ok (s : State) :
  allocated_ok s -> allocated_ok (snd (closeRuntime h s)).
Proof.
  intros Hok; destruct (checkpointer s) as [c|] eqn:Hc.
  - rewrite (closeRuntime_held s c Hc).
    destruct (close h c); simpl.
    + intros c' Hc'; simpl in Hc'; apply Hok; exact Hc'.
    + intros c' Hc'; discriminate Hc'.
  - rewrite (closeRuntime_idle s Hc); exact Hok.
Qed.

End Singleton.

Lemma initialState_allocated_ok : allocated_ok initialState.
Proof. intros c Hc; discriminate Hc. Qed.

(** C1.  Starting with an empty slot, any number of calls of
    [getCheckpointer] in a row, with no [closeRuntime] in between, leaves
    exactly two store events in the trace: the construction of one
    [SqlJsSaver] at [join(userData, 'langgraph.sqlite')] and one [initialize]
    of it, both made by the first call.  When that [initialize] resolves,
    every call returns this one instance; when it rejects, the first call
    rejects with the error and the later calls still return the instance,
    without initializing it again. *)
Theorem getCheckpointer_singleton {Agent : Type} (h : Host Agent) (s : State) (n : nat) :
  checkpointer s = None ->
  let c := mkSaver (allocated s) (join h (getPath h "userData") "langgraph.sqlite") in
  let run := callN (S n) (getCheckpointer h) s in
  snd run = mkState (Some c) (globalWorkspacePath s) (S (allocated s))
                    (trace s ++ [NewSqlJsSaver c; SaverInitialize c]) /\
  count is_new (trace (snd run)) = count is_new (trace s) + 1 /\
  count is_initialize (trace (snd run)) = count is_initialize (trace s) + 1 /\
  (initialize h c = None -> fst run = repeat (Ok c) (S n)) /\
  (forall e, initialize h c = Some e -> fst run = Throw e :: repeat (Ok c) n).
Proof.
  intros Hc c run.
  assert (Hrun : run =
    (match initialize h c with None => Ok c | Some e => Throw e end :: repeat (Ok c) n,
     mkState (Some c) (globalWorkspacePath s) (S (allocated s))
             (trace s ++ [NewSqlJsSaver c; SaverInitialize c]))).
  { unfold run; cbn [callN].
    rewrite (getCheckpointer_create h s Hc).
    fold (dbPath h); fold c.
    rewrite callN_held with (c := c) by reflexivity; reflexivity. }
  rewrite Hrun; cbn [fst snd trace].
  repeat split.
  - rewrite count_app; reflexivity.
  - rewrite count_app; reflexivity.
  - intros Hi; rewrite Hi; reflexivity.
  - intros e Hi; rewrite Hi; reflexivity.
Qed.

Lemma getCheckpointer_singleton_witness :
  callN 3 (getCheckpointer demoHost) initialState =
    ([Ok (demoSaver 0); Ok (demoSaver 0); Ok (demoSaver 0)],
     mkState (Some (demoSaver 0)) None 1
             [NewSqlJsSaver (demoSaver 0); SaverInitialize (demoSaver 0)]).
Proof.
  pose proof (getCheckpointer_singleton demoHost initialState 2 eq_refl) as H.
  cbv zeta in H.
  destruct H as (Hs & _ & _ & Hr & _).
  specialize (Hr eq_refl).
  rewrite (surjective_pairing (callN 3 (getCheckpointer demoHost) initialState)).
  rewrite Hr, Hs; reflexivity.
Defined.

(** C2, as stated, fails.  On [demoHost] the first [getCheckpointer] returns
    store 0 and [closeRuntime] closes it; the next [getCheckpointer] then
    does not fail: it constructs store 1, initializes it and returns it. *)
Lemma getCheckpointer_after_close_reopens :
  let s1 := snd (getCheckpointer demoHost initialState) in
  let s2 := snd (closeRuntime demoHost s1) in
  fst (getCheckpointer demoHost initialState) = Ok (demoSaver 0) /\
  fst (closeRuntime demoHost s1) = Ok tt /\
  getCheckpointer demoHost s2 =
    (Ok (demoSaver 1),
     mkState (Some (demoSaver 1)) None 2
             [NewSqlJsSaver (demoSaver 0); SaverInitialize (demoSaver 0);
              SaverClose (demoSaver 0);
              NewSqlJsSaver (demoSaver 1); SaverInitialize (demoSaver 1)]).
Proof. cbv zeta; split; [|split]; reflexivity. Qed.

(** C2, amended.  Once [closeRuntime] has completed on a held store [c], the
    slot is empty, and the next [getCheckpointer] constructs a new store [c']
    at the same path, other than [c], awaits its [initialize] and returns it;
    it rejects only when that [initialize] rejects, with its error. *)
Theorem getCheckpointer_after_closeRuntime {Agent : Type} (h : Host Agent)
    (s : State) (c : SqlJsSaver) :
  allocated_ok s ->
  checkpointer s = Some c ->
  fst (closeRuntime h s) = Ok tt ->
  let s1 := snd (closeRuntime h s) in
  let c' := mkSaver (allocated s) (join h (getPath h "userData") "langgraph.sqlite") in
  checkpointer s1 = None /\
  c' <> c /\
  fst (getCheckpointer h s1) =
    match initialize h c' with
    | None => Ok c'
    | Some e => Throw e
    end /\
  snd (getCheckpointer h s1) =
    mkState (Some c') (globalWorkspacePath s) (S (allocated s))
            (trace s ++ [SaverClose c; NewSqlJsSaver c'; SaverInitialize c']).
Proof.
  intros Hok Hc Hclose s1 c'.
  unfold s1 in *; clear s1.
  rewrite (closeRuntime_held h s c Hc) in *.
  destruct (close h c) as [e|]; [discriminate Hclose|]; cbn [fst snd] in *.
  split; [reflexivity|].
  split.
  - intros Heq. specialize (Hok c Hc). rewrite <- Heq in Hok; simpl in Hok; lia.
  - rewrite getCheckpointer_create by reflexivity.
    cbn [fst snd allocated trace globalWorkspacePath]; fold c'.
    rewrite <- app_assoc; split; reflexivity.
Qed.

Lemma getCheckpointer_after_closeRuntime_witness :
  let s := snd (getCheckpointer demoHost initialState) in
  let s1 := snd (closeRuntime demoHost s) in
  checkpointer s1 = None /\
  demoSaver 1 <> demoSaver 0 /\
  fst (getCheckpointer demoHost s1) = Ok (demoSaver 1) /\
  snd (getCheckpointer demoHost s1) =
    mkState (Some (demoSaver 1)) None 2
            [NewSqlJsSaver (demoSaver 0); SaverInitialize (demoSaver 0);
             SaverClose (demoSaver 0);
             NewSqlJsSaver (demoSaver 1); SaverInitialize (demoSaver 1)].
Proof.
  cbv zeta.
  apply (getCheckpointer_after_closeRuntime demoHost
           (snd (getCheckpointer demoHost initialState)) (demoSaver 0)).
  - apply getCheckpointer_allocated_ok, initialState_allocated_ok.
  - reflexivity.
  - reflexivity.
Defined.

(** C7.  When a store [c] is held and a first [closeRuntime] has completed, a
    second [closeRuntime] right after it returns without throwing and
    changes nothing, neither the state nor the trace; the slot stays empty,
    and over the two calls [close] ran once, on [c]. *)
Theorem closeRuntime_twice {Agent : Type} (h : Host Agent) (s : State) (c : SqlJsSaver) :
  checkpointer s = Some c ->
  fst (closeRuntime h s) = Ok tt ->
  let s1 := snd (closeRuntime h s) in
  let s2 := snd (closeRuntime h s1) in
  closeRuntime h s1 = (Ok tt, s1) /\
  checkpointer s2 = None /\
  trace s2 = trace s ++ [SaverClose c] /\
  count is_close (trace s2) = count is_close (trace s) + 1.
Proof.
  intros Hc Hclose s1 s2.
  unfold s2, s1 in *; clear s1 s2.
  rewrite (closeRuntime_held h s c Hc) in *.
  destruct (close h c) as [e|]; [discriminate Hclose|]; cbn [fst snd] in *.
  rewrite closeRuntime_idle by reflexivity; cbn [fst snd checkpointer trace].
  repeat split.
  rewrite count_app; reflexivity.
Qed.

Lemma closeRuntime_twice_witness :
  let s := snd (getCheckpointer demoHost initialState) in
  let s1 := snd (closeRuntime demoHost s) in
  let s2 := snd (closeRuntime demoHost s1) in
  closeRuntime demoHost s1 = (Ok tt, s1) /\
  checkpointer s2 = None /\
  trace s2 = trace s ++ [SaverClose (demoSaver 0)] /\
  count is_close (trace s2) = count is_close (trace s) + 1.
Proof.
  cbv zeta.
  apply (closeRuntime_twice demoHost
           (snd (getCheckpointer demoHost initialState)) (demoSaver 0));
    reflexivity.
Defined.

(** ** The workspace path *)

(** C10.  [setWorkspacePath(p)] returns without throwing, a
    [getWorkspacePath] after it returns [p] and changes nothing, and
    [setWorkspacePath] leaves the checkpointer slot and the allocation counter
    as they were: besides the path, it only writes one line on the console. *)
Theorem getWorkspacePath_after_setWorkspacePath (p : option string) (s : State) :
  let s1 := snd (setWorkspacePath p s) in
  fst (setWorkspacePath p s) = Ok tt /\
  getWorkspacePath s1 = (Ok p, s1) /\
  checkpointer s1 = checkpointer s /\
  allocated s1 = allocated s /\
  trace s1 = trace s ++ [ConsoleLog [LStr "[Runtime] Workspace path set to:"; LPath p]].
Proof. cbv zeta; split; [|split; [|split; [|split]]]; reflexivity. Qed.

(** ** Model selection *)

Lemma prefix_nil (s : string) : String.prefix "" s = true.
Proof. destruct s; reflexivity. Qed.

(** A prefix test reads no further than the length of the prefix. *)
Lemma prefix_substring (p : string) :
  forall (n : nat) (m : string),
    String.length p <= n ->
    String.prefix p (substring 0 n m) = String.prefix p m.
Proof.
  induction p as [|a p IH]; intros n m Hlen.
  - rewrite !prefix_nil; reflexivity.
  - destruct n as [|n]; [simpl in Hlen; lia|].
    destruct m as [|b m]; [reflexivity|].
    simpl. destruct (ascii_dec a b); [|reflexivity].
    apply IH; simpl in Hlen; lia.
Qed.

Lemma prefix_head (a b : ascii) (p m : string) :
  String.prefix (String a p) (String b m) = true -> a = b.
Proof.
  cbn [String.prefix]; destruct (ascii_dec a b); [trivial|discriminate].
Qed.

Lemma providerOfPrefix_substring (m : string) :
  providerOfPrefix (substring 0 6 m) = providerOfPrefix m.
Proof.
  unfold providerOfPrefix.
  rewrite !prefix_substring by (simpl; lia); reflexivity.
Qed.

Lemma startsWith_truthy (m p : string) :
  startsWith m p = true -> truthy p = true -> truthy m = true.
Proof.
  unfold startsWith; destruct p as [|a p]; [discriminate 2|].
  destruct m as [|b m]; [discriminate 1|reflexivity].
Qed.

Section ModelSelection.

Context {Agent : Type} (h : Host Agent).

Lemma effectiveModel_truthy (m : string) :
  truthy m = true -> effectiveModel h (defined m) = m.
Proof. intros Ht; unfold effectiveModel; rewrite Ht; reflexivity. Qed.

(** [getModelInstance] reads no state and only writes to the console. *)
Lemma getModelInstance_run (modelId : Optional string) :
  exists (r : Result ModelInstance) (evs : list Event),
    (forall s, getModelInstance h modelId s = (r, extend s evs)) /\
    calls evs = [].
Proof.
  unfold getModelInstance, bind, log, emit, throw, ret.
  destruct (startsWith (effectiveModel h modelId) "claude");
    [|destruct (startsWith (effectiveModel h modelId) "gpt");
      [|destruct (startsWith (effectiveModel h modelId) "gemini")]].
  1: destruct (truthy_opt (getApiKey h "anthropic")).
  3: destruct (truthy_opt (getApiKey h "openai")).
  all: cbn [negb]; eexists; eexists; split;
    [intros s; cbn; rewrite <- ?app_assoc; reflexivity | reflexivity].
Qed.

Lemma getModelInstance_result (modelId : Optional string) (s s' : State) :
  fst (getModelInstance h modelId s) = fst (getModelInstance h modelId s').
Proof.
  destruct (getModelInstance_run modelId) as (r & evs & Hrun & _).
  rewrite !Hrun; reflexivity.
Qed.

Lemma getModelInstance_anthropic (modelId : Optional string) (s : State) :
  startsWith (effectiveModel h modelId) "claude" = true ->
  fst (getModelInstance h modelId s) =
    if truthy_opt (getApiKey h "anthropic")
    then Ok (ChatAnthropic (effectiveModel h modelId) (getApiKey h "anthropic"))
    else Throw (Error "Anthropic API key not configured").
Proof.
  intros Hp; unfold getModelInstance, bind, log, emit, throw, ret.
  rewrite Hp; destruct (truthy_opt (getApiKey h "anthropic")); reflexivity.
Qed.

Lemma getModelInstance_openai (modelId : Optional string) (s : State) :
  startsWith (effectiveModel h modelId) "gpt" = true ->
  fst (getModelInstance h modelId s) =
    if truthy_opt (getApiKey h "openai")
    then Ok (ChatOpenAI (effectiveModel h modelId) (getApiKey h "openai"))
    else Throw (Error "OpenAI API key not configured").
Proof.
  intros Hp; unfold getModelInstance, bind, log, emit, throw, ret.
  destruct (startsWith (effectiveModel h modelId) "claude") eqn:Hc.
  - (* no string starts with both "claude" and "gpt" *)
    unfold startsWith in *.
    destruct (effectiveModel h modelId) as [|b m]; [discriminate Hp|].
    apply prefix_head in Hp; apply prefix_head in Hc.
    rewrite <- Hp in Hc; discriminate Hc.
  - rewrite Hp; destruct (truthy_opt (getApiKey h "openai")); reflexivity.
Qed.

Lemma getModelInstance_other (modelId : Optional string) (s : State) :
  startsWith (effectiveModel h modelId) "claude" = false ->
  startsWith (effectiveModel h modelId) "gpt" = false ->
  fst (getModelInstance h modelId s) =
    if startsWith (effectiveModel h modelId) "gemini"
    then Throw (Error "Gemini support coming soon")
    else Ok (ModelName (effectiveModel h modelId)).
Proof.
  intros Hc Hg; unfold getModelInstance, bind, log, emit, throw, ret.
  rewrite Hc, Hg.
  destruct (startsWith (effectiveModel h modelId) "gemini"); reflexivity.
Qed.

Lemma branchTaken_getModelInstance (modelId : Optional string) (s : State) :
  branchTaken (fst (getModelInstance h modelId s)) =
    Some (providerOfPrefix (effectiveModel h modelId)).
Proof.
  unfold providerOfPrefix.
  destruct (String.prefix "claude" (effectiveModel h modelId)) eqn:Hc.
  - rewrite getModelInstance_anthropic by exact Hc.
    destruct (truthy_opt (getApiKey h "anthropic")); reflexivity.
  - destruct (String.prefix "gpt" (effectiveModel h modelId)) eqn:Hg.
    + rewrite getModelInstance_openai by exact Hg.
      destruct (truthy_opt (getApiKey h "openai")); reflexivity.
    + rewrite getModelInstance_other by assumption.
      unfold startsWith.
      destruct (String.prefix "gemini" (effectiveModel h modelId)); reflexivity.
Qed.

End ModelSelection.

(** C3.  When the model id in force (the argument, or the default model
    when the argument is absent or empty) begins with 'claude', the key looked
    up is [getApiKey('anthropic')]: without a key (absent or empty)
    [getModelInstance] throws [Error('Anthropic API key not configured')] and
    returns no handle, with a key it returns a [ChatAnthropic] made of that
    model id and that key.  The same holds for 'gpt', [getApiKey('openai')]
    and [ChatOpenAI].  An argument that begins with either prefix is the model
    id in force. *)
Theorem getModelInstance_credentials {Agent : Type} (h : Host Agent)
    (modelId : Optional string) (s : State) :
  let model := effectiveModel h modelId in
  (startsWith model "claude" = true ->
     fst (getModelInstance h modelId s) =
       if truthy_opt (getApiKey h "anthropic")
       then Ok (ChatAnthropic model (getApiKey h "anthropic"))
       else Throw (Error "Anthropic API key not configured")) /\
  (startsWith model "gpt" = true ->
     fst (getModelInstance h modelId s) =
       if truthy_opt (getApiKey h "openai")
       then Ok (ChatOpenAI model (getApiKey h "openai"))
       else Throw (Error "OpenAI API key not configured")) /\
  (forall m, modelId = defined m ->
     startsWith m "claude" = true \/ startsWith m "gpt" = true -> model = m).
Proof.
  intros model; unfold model; split; [|split].
  - apply getModelInstance_anthropic.
  - apply getModelInstance_openai.
  - intros m -> Hp; apply effectiveModel_truthy.
    destruct Hp as [Hp|Hp]; apply (startsWith_truthy _ _ Hp); reflexivity.
Qed.

Lemma getModelInstance_credentials_witness :
  fst (getModelInstance demoHost (defined "claude-opus-4") initialState) =
    Ok (ChatAnthropic "claude-opus-4" (Some "sk-ant-demo")) /\
  fst (getModelInstance demoHost (defined "gpt-4o") initialState) =
    Throw (Error "OpenAI API key not configured") /\
  fst (getModelInstance brokenHost (defined "claude-opus-4") initialState) =
    Throw (Error "Anthropic API key not configured") /\
  fst (getModelInstance brokenHost undefined initialState) =
    Ok (ChatOpenAI "gpt-4o" (Some "sk-demo")).
Proof.
  split; [|split; [|split]].
  - exact (proj1 (getModelInstance_credentials demoHost (defined "claude-opus-4")
                    initialState) eq_refl).
  - exact (proj1 (proj2 (getModelInstance_credentials demoHost (defined "gpt-4o")
                           initialState)) eq_refl).
  - exact (proj1 (getModelInstance_credentials brokenHost (defined "claude-opus-4")
                    initialState) eq_refl).
  - exact (proj1 (proj2 (getModelInstance_credentials brokenHost undefined
                           initialState)) eq_refl).
Defined.

(** C4, as stated, fails.  'llama-3' begins with no provider prefix, and
    [getModelInstance] does not throw: it returns the string itself. *)
Lemma getModelInstance_unrecognized_returns :
  getModelInstance demoHost (defined "llama-3") initialState =
    (Ok (ModelName "llama-3"),
     mkState None None 0 [ConsoleLog [LStr "[Runtime] Using model:"; LStr "llama-3"]]).
Proof. reflexivity. Qed.

(** C4, amended.  When the model id in force begins with neither 'claude'
    nor 'gpt', [getModelInstance] builds no chat model: for an id that begins
    with 'gemini' it throws [Error('Gemini support coming soon')], and for
    every other id it does not fail and returns the id itself, as a string,
    for the agent engine to resolve. *)
Theorem getModelInstance_unrecognized {Agent : Type} (h : Host Agent)
    (modelId : Optional string) (s : State) :
  let model := effectiveModel h modelId in
  startsWith model "claude" = false ->
  startsWith model "gpt" = false ->
  fst (getModelInstance h modelId s) =
    if startsWith model "gemini"
    then Throw (Error "Gemini support coming soon")
    else Ok (ModelName model).
Proof. intros model; apply getModelInstance_other. Qed.

Lemma getModelInstance_unrecognized_witness :
  fst (getModelInstance demoHost (defined "gemini-1.5-pro") initialState) =
    Throw (Error "Gemini support coming soon") /\
  fst (getModelInstance demoHost (defined "mistral-large") initialState) =
    Ok (ModelName "mistral-large").
Proof.
  split.
  - exact (getModelInstance_unrecognized demoHost (defined "gemini-1.5-pro")
             initialState eq_refl eq_refl).
  - exact (getModelInstance_unrecognized demoHost (defined "mistral-large")
             initialState eq_refl eq_refl).
Defined.

(** C5.  The branch [getModelInstance] takes is the one the prefix switch
    [providerOfPrefix] names for the model id in force, whatever the host,
    its keys and the state; and the switch looks at the first six characters
    only: two calls whose model ids agree on them take the same branch, on
    any two hosts and in any two states. *)
Theorem getModelInstance_dispatch_by_prefix {A1 A2 : Type}
    (h1 : Host A1) (h2 : Host A2) (id1 id2 : Optional string) (s1 s2 : State) :
  substring 0 6 (effectiveModel h1 id1) = substring 0 6 (effectiveModel h2 id2) ->
  branchTaken (fst (getModelInstance h1 id1 s1)) =
    Some (providerOfPrefix (effectiveModel h1 id1)) /\
  branchTaken (fst (getModelInstance h1 id1 s1)) =
    branchTaken (fst (getModelInstance h2 id2 s2)).
Proof.
  intros Hsub.
  rewrite !branchTaken_getModelInstance.
  split; [reflexivity|].
  rewrite <- (providerOfPrefix_substring (effectiveModel h1 id1)), Hsub.
  rewrite providerOfPrefix_substring; reflexivity.
Qed.

Lemma getModelInstance_dispatch_by_prefix_witness :
  branchTaken (fst (getModelInstance demoHost (defined "claude-opus-4") initialState)) =
    Some Anthropic /\
  branchTaken (fst (getModelInstance demoHost (defined "claude-opus-4") initialState)) =
    branchTaken (fst (getModelInstance brokenHost (defined "claude-3-haiku")
                        (mkState (Some (demoSaver 0)) (Some "/tmp/w") 1 []))).
Proof.
  exact (getModelInstance_dispatch_by_prefix demoHost brokenHost
           (defined "claude-opus-4") (defined "claude-3-haiku")
           initialState (mkState (Some (demoSaver 0)) (Some "/tmp/w") 1 []) eq_refl).
Defined.

(** ** Wiring the agent *)

Lemma factoryCalls_app (l1 l2 : list Event) :
  factoryCalls (l1 ++ l2) = factoryCalls l1 ++ factoryCalls l2.
Proof. unfold factoryCalls; apply filter_app. Qed.

(** Console output is no call, so it is no factory call either. *)
Lemma factoryCalls_calls (l : list Event) : factoryCalls (calls l) = factoryCalls l.
Proof.
  induction l as [|e l IH]; [reflexivity|].
  destruct e; simpl; rewrite ?IH; reflexivity.
Qed.

Section Wiring.

Context {Agent : Type} (h : Host Agent).

Variable options : Optional CreateAgentRuntimeOptions.

Let o : CreateAgentRuntimeOptions := optionsOrEmpty options.

(** When model selection throws, nothing but console output has happened. *)
Lemma createAgentRuntime_model_throws (s : State) (e : JsError) :
  fst (getModelInstance h (modelId o) s) = Throw e ->
  exists evs,
    createAgentRuntime h options s = (Throw e, extend s evs) /\ calls evs = [].
Proof.
  intros Hm.
  destruct (getModelInstance_run h (modelId o)) as (r & evs & Hrun & Hcalls).
  rewrite Hrun in Hm; cbn [fst] in Hm; subst r.
  exists (ConsoleLog [LStr "[Runtime] Creating agent runtime..."] :: evs).
  split.
  - unfold createAgentRuntime, bind; fold o.
    rewrite log_run, Hrun, extend_extend; reflexivity.
  - exact Hcalls.
Qed.

(** The run up to the point where the checkpointer is requested. *)
Lemma createAgentRuntime_to_checkpointer (s : State) (model : ModelInstance) :
  fst (getModelInstance h (modelId o) s) = Ok model ->
  exists evs,
    calls evs = [] /\
    createAgentRuntime h options s =
      match getCheckpointer h (extend s evs) with
      | (Throw e, s1) => (Throw e, s1)
      | (Ok saver, s1) =>
          let syncPath := selectSyncPath (workspacePath o) (globalWorkspacePath s1) in
          let params := mkParams model saver (mkFactory syncPath) in
          (Ok (createDeepAgent h params),
           extend s1
             [ConsoleLog [LStr "[Runtime] Checkpointer ready"];
              ConsoleLog [LStr "[Runtime] Sync path:"; LPath syncPath];
              CallCreateSyncedBackendFactory syncPath;
              CallCreateDeepAgent params;
              ConsoleLog [LStr "[Runtime] Deep agent created with";
                          LStr (if truthy_opt syncPath
                                then "disk sync" else "state-only storage")]])
      end.
Proof.
  intros Hm.
  destruct (getModelInstance_run h (modelId o)) as (r & evs & Hrun & Hcalls).
  rewrite Hrun in Hm; cbn [fst] in Hm; subst r.
  exists (ConsoleLog [LStr "[Runtime] Creating agent runtime..."] :: evs ++
          [ConsoleLog [LStr "[Runtime] Model instance created:";
                       LStr (typeof_model model)]]).
  split.
  - change (calls (?e :: ?l)) with (calls l).
    rewrite calls_app, Hcalls; reflexivity.
  - unfold createAgentRuntime; fold o.
    unfold bind at 1; rewrite log_run.
    unfold bind at 1; rewrite Hrun.
    unfold bind at 1; rewrite log_run.
    rewrite !extend_extend; cbn [app].
    unfold bind at 1.
    destruct (getCheckpointer h _) as [[saver|e] s1]; [|reflexivity].
    unfold bind, log, emit, gets, createSyncedBackendFactory, callCreateDeepAgent, ret.
    cbn; unfold extend; rewrite <- !app_assoc; reflexivity.
Qed.

Lemma getCheckpointer_extend (s : State) (evs : list Event) :
  getCheckpointer h (extend s evs) =
    match checkpointer s with
    | Some c => (Ok c, extend s evs)
    | None =>
        let c := mkSaver (allocated s) (dbPath h) in
        (match initialize h c with
         | None => Ok c
         | Some e => Throw e
         end,
         mkState (Some c) (globalWorkspacePath s) (S (allocated s))
                 (trace s ++ evs ++ [NewSqlJsSaver c; SaverInitialize c]))
    end.
Proof.
  destruct (checkpointer s) as [c|] eqn:Hc.
  - apply getCheckpointer_held; exact Hc.
  - rewrite getCheckpointer_create by exact Hc.
    cbn; rewrite <- app_assoc; reflexivity.
Qed.

(** When the model is selected and the checkpointer obtained, the agent
    is made of both and of the factory for the selected path. *)
Lemma createAgentRuntime_ok (s : State) (model : ModelInstance) (saver : SqlJsSaver) :
  fst (getModelInstance h (modelId o) s) = Ok model ->
  fst (getCheckpointer h s) = Ok saver ->
  let syncPath := selectSyncPath (workspacePath o) (globalWorkspacePath s) in
  let params := mkParams model saver (mkFactory syncPath) in
  let run := createAgentRuntime h options s in
  fst run = Ok (createDeepAgent h params) /\
  checkpointer (snd run) = Some saver /\
  globalWorkspacePath (snd run) = globalWorkspacePath s /\
  calls (trace (snd run)) =
    calls (trace (snd (getCheckpointer h s))) ++
    [CallCreateSyncedBackendFactory syncPath; CallCreateDeepAgent params].
Proof.
  intros Hm Hc syncPath params run.
  destruct (createAgentRuntime_to_checkpointer s model Hm) as (evs & Hcalls & Hrun).
  unfold run; rewrite Hrun; clear Hrun run.
  rewrite getCheckpointer_extend.
  destruct (checkpointer s) as [c|] eqn:Hs.
  - rewrite (getCheckpointer_held h s c Hs) in *; cbn [fst snd] in *.
    injection Hc as ->.
    cbn [fst snd extend checkpointer globalWorkspacePath trace].
    fold syncPath; fold params.
    repeat split; [exact Hs|].
    rewrite !calls_app, Hcalls, app_nil_r; reflexivity.
  - rewrite (getCheckpointer_create h s Hs) in *; cbn [fst snd] in *.
    cbv zeta.
    destruct (initialize h _) as [e|]; [discriminate Hc|].
    injection Hc as <-.
    cbn [fst snd extend checkpointer globalWorkspacePath trace].
    fold syncPath; fold params.
    repeat split.
    rewrite !calls_app, Hcalls; cbn [app]; rewrite <- !app_assoc; reflexivity.
Qed.

(** When the store cannot be initialized, the call rejects before any
    factory or agent is made. *)
Lemma createAgentRuntime_store_throws (s : State) (model : ModelInstance) (e : JsError) :
  fst (getModelInstance h (modelId o) s) = Ok model ->
  fst (getCheckpointer h s) = Throw e ->
  let run := createAgentRuntime h options s in
  fst run = Throw e /\
  calls (trace (snd run)) = calls (trace (snd (getCheckpointer h s))).
Proof.
  intros Hm Hc run.
  destruct (createAgentRuntime_to_checkpointer s model Hm) as (evs & Hcalls & Hrun).
  unfold run; rewrite Hrun; clear Hrun run.
  rewrite getCheckpointer_extend.
  destruct (checkpointer s) as [c|] eqn:Hs.
  - rewrite (getCheckpointer_held h s c Hs) in Hc; discriminate Hc.
  - rewrite (getCheckpointer_create h s Hs) in *; cbn [fst snd] in *.
    cbv zeta.
    destruct (initialize h _) as [e'|]; [|discriminate Hc].
    injection Hc as ->.
    cbn [fst snd trace]; split; [reflexivity|].
    rewrite !calls_app, Hcalls; reflexivity.
Qed.

End Wiring.

Lemma factoryCalls_getCheckpointer {Agent : Type} (h : Host Agent) (s : State) :
  factoryCalls (trace (snd (getCheckpointer h s))) = factoryCalls (trace s).
Proof.
  destruct (checkpointer s) as [c|] eqn:Hs.
  - rewrite (getCheckpointer_held h s c Hs); reflexivity.
  - rewrite (getCheckpointer_create h s Hs); cbn [snd trace].
    rewrite factoryCalls_app, app_nil_r; reflexivity.
Qed.

(** C6, as stated, fails.  With the options [{ modelId: 'gemini-pro' }] the
    call throws in model selection: the checkpointer is never requested and
    neither a backend factory nor an agent is made. *)
Lemma createAgentRuntime_gemini_throws :
  createAgentRuntime demoHost (defined (mkOptions (defined "gemini-pro") undefined))
                     initialState =
    (Throw (Error "Gemini support coming soon"),
     mkState None None 0
             [ConsoleLog [LStr "[Runtime] Creating agent runtime..."];
              ConsoleLog [LStr "[Runtime] Using model:"; LStr "gemini-pro"]]).
Proof. reflexivity. Qed.

(** C6, amended.  For every options value, when [getModelInstance] returns a
    model and [getCheckpointer] resolves, [createAgentRuntime] holds the store
    [getCheckpointer] gave in the singleton slot, calls
    [createSyncedBackendFactory] once with the selected sync path, then
    [createDeepAgent] once with exactly that model, that store and that
    factory, and returns its result.  When [getModelInstance] throws, the call
    throws that error and has made no call at all; when the store fails to
    initialize, the call throws that error and makes neither factory nor
    agent. *)
Theorem createAgentRuntime_wiring {Agent : Type} (h : Host Agent)
    (options : Optional CreateAgentRuntimeOptions) (s : State) :
  let o := optionsOrEmpty options in
  let syncPath := selectSyncPath (workspacePath o) (globalWorkspacePath s) in
  let run := createAgentRuntime h options s in
  match fst (getModelInstance h (modelId o) s) with
  | Throw e =>
      fst run = Throw e /\
      checkpointer (snd run) = checkpointer s /\
      calls (trace (snd run)) = calls (trace s)
  | Ok model =>
      match fst (getCheckpointer h s) with
      | Throw e =>
          fst run = Throw e /\
          calls (trace (snd run)) = calls (trace (snd (getCheckpointer h s)))
      | Ok saver =>
          let params := mkParams model saver (mkFactory syncPath) in
          fst run = Ok (createDeepAgent h params) /\
          checkpointer (snd run) = Some saver /\
          calls (trace (snd run)) =
            calls (trace (snd (getCheckpointer h s))) ++
            [CallCreateSyncedBackendFactory syncPath; CallCreateDeepAgent params]
      end
  end.
Proof.
  intros o syncPath run.
  destruct (fst (getModelInstance h (modelId o) s)) as [model|e] eqn:Hm.
  - destruct (fst (getCheckpointer h s)) as [saver|e] eqn:Hc.
    + destruct (createAgentRuntime_ok h options s model saver Hm Hc)
        as (Hr & Hk & _ & Ht).
      split; [exact Hr|]; split; [exact Hk|exact Ht].
    + exact (createAgentRuntime_store_throws h options s model e Hm Hc).
  - destruct (createAgentRuntime_model_throws h options s e Hm) as (evs & Hrun & Hcalls).
    unfold run; rewrite Hrun; cbn [fst snd extend checkpointer trace].
    split; [reflexivity|]; split; [reflexivity|].
    rewrite calls_app, Hcalls, app_nil_r; reflexivity.
Qed.

Lemma createAgentRuntime_wiring_witness :
  let params := mkParams (ChatAnthropic "claude-opus-4" (Some "sk-ant-demo"))
                         (demoSaver 0) (mkFactory (Some "/work")) in
  let run := createAgentRuntime demoHost
               (defined (mkOptions (defined "claude-opus-4") (defined (Some "/work"))))
               initialState in
  fst run = Ok params /\
  checkpointer (snd run) = Some (demoSaver 0) /\
  calls (trace (snd run)) =
    [NewSqlJsSaver (demoSaver 0); SaverInitialize (demoSaver 0);
     CallCreateSyncedBackendFactory (Some "/work"); CallCreateDeepAgent params].
Proof.
  exact (createAgentRuntime_wiring demoHost
           (defined (mkOptions (defined "claude-opus-4") (defined (Some "/work"))))
           initialState).
Defined.

(** C9.  After [setWorkspacePath(p)], a [createAgentRuntime] whose options
    leave [workspacePath] out gives [p] to [createSyncedBackendFactory], and
    one whose options give [workspacePath: null] gives it [null], whatever
    [p] is; in both the factory is called once and the agent is made of it.
    The model is taken to be selected and the checkpointer to be obtained
    without error, since otherwise no factory is made. *)
Theorem createAgentRuntime_workspacePath {Agent : Type} (h : Host Agent)
    (p : option string) (mid : Optional string) (s : State)
    (model : ModelInstance) (saver : SqlJsSaver) :
  let s1 := snd (setWorkspacePath p s) in
  let absent := createAgentRuntime h (defined (mkOptions mid undefined)) s1 in
  let null := createAgentRuntime h (defined (mkOptions mid (defined None))) s1 in
  fst (getModelInstance h mid s1) = Ok model ->
  fst (getCheckpointer h s1) = Ok saver ->
  (fst absent = Ok (createDeepAgent h (mkParams model saver (mkFactory p))) /\
   factoryCalls (trace (snd absent)) =
     factoryCalls (trace s) ++ [CallCreateSyncedBackendFactory p]) /\
  (fst null = Ok (createDeepAgent h (mkParams model saver (mkFactory None))) /\
   factoryCalls (trace (snd null)) =
     factoryCalls (trace s) ++ [CallCreateSyncedBackendFactory None]).
Proof.
  intros s1 absent null Hm Hc.
  assert (Hs1 : factoryCalls (trace (snd (getCheckpointer h s1))) = factoryCalls (trace s)).
  { rewrite factoryCalls_getCheckpointer; unfold s1; cbn.
    rewrite factoryCalls_app, app_nil_r; reflexivity. }
  split.
  - destruct (createAgentRuntime_ok h (defined (mkOptions mid undefined)) s1 model saver
                Hm Hc) as (Hr & _ & _ & Ht).
    split; [exact Hr|].
    fold absent in Ht.
    rewrite <- factoryCalls_calls, Ht, factoryCalls_app, factoryCalls_calls, Hs1.
    reflexivity.
  - destruct (createAgentRuntime_ok h (defined (mkOptions mid (defined None))) s1 model
                saver Hm Hc) as (Hr & _ & _ & Ht).
    split; [exact Hr|].
    fold null in Ht.
    rewrite <- factoryCalls_calls, Ht, factoryCalls_app, factoryCalls_calls, Hs1.
    reflexivity.
Qed.

Lemma createAgentRuntime_workspacePath_witness :
  let model := ChatAnthropic "claude-sonnet-4-5" (Some "sk-ant-demo") in
  let s1 := snd (setWorkspacePath (Some "/home/ada/project") initialState) in
  let absent := createAgentRuntime demoHost (defined (mkOptions undefined undefined)) s1 in
  let null := createAgentRuntime demoHost (defined (mkOptions undefined (defined None))) s1 in
  (fst absent =
     Ok (mkParams model (demoSaver 0) (mkFactory (Some "/home/ada/project"))) /\
   factoryCalls (trace (snd absent)) =
     [CallCreateSyncedBackendFactory (Some "/home/ada/project")]) /\
  (fst null = Ok (mkParams model (demoSaver 0) (mkFactory None)) /\
   factoryCalls (trace (snd null)) = [CallCreateSyncedBackendFactory None]).
Proof.
  exact (createAgentRuntime_workspacePath demoHost (Some "/home/ada/project") undefined
           initialState (ChatAnthropic "claude-sonnet-4-5" (Some "sk-ant-demo"))
           (demoSaver 0) eq_refl eq_refl).
Defined.

(** * Properties of the checkpoint store *)

Module CheckpointStoreFacts.

Import CheckpointStore.

Section Latest.

Context {Id : Type} (leb : Id -> Id -> bool).

Hypothesis leb_total : forall a b, leb a b = true \/ leb b a = true.
Hypothesis leb_trans :
  forall a b c, leb a b = true -> leb b c = true -> leb a c = true.

Variable tid : string.

Lemma summarizes_skip seen best c :
  threadId c <> tid -> summarizes leb tid seen best -> summarizes leb tid (seen ++ [c]) best.
Proof.
  intros Hne Hsum; destruct best as [b|]; simpl in *.
  - destruct Hsum as (Hin & Htid & Hmax); split; [|split].
    + apply in_or_app; left; exact Hin.
    + exact Htid.
    + intros d Hd Hdt; apply in_app_or in Hd; destruct Hd as [Hd|[<-|[]]].
      * apply Hmax; assumption.
      * contradiction.
  - intros d Hd; apply in_app_or in Hd; destruct Hd as [Hd|[<-|[]]].
    + apply Hsum; exact Hd.
    + exact Hne.
Qed.

Lemma summarizes_first seen c :
  threadId c = tid -> summarizes leb tid seen None -> summarizes leb tid (seen ++ [c]) (Some c).
Proof.
  intros Hc Hnone; split; [|split].
  - apply in_or_app; right; left; reflexivity.
  - exact Hc.
  - intros d Hd Hdt; apply in_app_or in Hd; destruct Hd as [Hd|[<-|[]]].
    + exfalso; exact (Hnone d Hd Hdt).
    + destruct (leb_total (checkpointId c) (checkpointId c)); assumption.
Qed.

Lemma summarizes_replace seen b c :
  threadId c = tid ->
  leb (checkpointId b) (checkpointId c) = true ->
  summarizes leb tid seen (Some b) -> summarizes leb tid (seen ++ [c]) (Some c).
Proof.
  intros Hc Hle (Hin & Htid & Hmax); split; [|split].
  - apply in_or_app; right; left; reflexivity.
  - exact Hc.
  - intros d Hd Hdt; apply in_app_or in Hd; destruct Hd as [Hd|[<-|[]]].
    + apply (leb_trans _ (checkpointId b)); [apply Hmax; assumption|exact Hle].
    + destruct (leb_total (checkpointId c) (checkpointId c)); assumption.
Qed.

Lemma summarizes_keep seen b c :
  threadId c = tid ->
  leb (checkpointId b) (checkpointId c) = false ->
  summarizes leb tid seen (Some b) -> summarizes leb tid (seen ++ [c]) (Some b).
Proof.
  intros Hc Hle (Hin & Htid & Hmax); split; [|split].
  - apply in_or_app; left; exact Hin.
  - exact Htid.
  - intros d Hd Hdt; apply in_app_or in Hd; destruct Hd as [Hd|[<-|[]]].
    + apply Hmax; assumption.
    + destruct (leb_total (checkpointId b) (checkpointId c)) as [H|H];
        [rewrite H in Hle; discriminate Hle|exact H].
Qed.

Lemma scanLatest_summarizes (l : list (Checkpoint Id)) :
  forall seen best,
    summarizes leb tid seen best ->
    summarizes leb tid (seen ++ l) (scanLatest leb tid best l).
Proof.
  induction l as [|c rest IH]; intros seen best Hsum.
  - rewrite app_nil_r; exact Hsum.
  - replace (seen ++ c :: rest) with ((seen ++ [c]) ++ rest)
      by (rewrite <- app_assoc; reflexivity).
    cbn [scanLatest].
    destruct (String.eqb_spec (threadId c) tid) as [Hc|Hc].
    + destruct best as [b|].
      * destruct (leb (checkpointId b) (checkpointId c)) eqn:Hle; apply IH.
        -- exact (summarizes_replace seen b c Hc Hle Hsum).
        -- exact (summarizes_keep seen b c Hc Hle Hsum).
      * apply IH; exact (summarizes_first seen c Hc Hsum).
    + apply IH; exact (summarizes_skip seen best c Hc Hsum).
Qed.

(** Once a checkpoint of the thread is held, the scan ends with one. *)
Lemma scanLatest_found (l : list (Checkpoint Id)) :
  forall best,
    (best <> None \/ exists d, In d l /\ threadId d = tid) ->
    scanLatest leb tid best l <> None.
Proof.
  induction l as [|c rest IH]; intros best Hex.
  - destruct Hex as [Hb|(d & [] & _)]; exact Hb.
  - cbn [scanLatest].
    destruct (String.eqb_spec (threadId c) tid) as [Hc|Hc].
    + destruct best as [b|];
        [destruct (leb (checkpointId b) (checkpointId c))|];
        apply IH; left; discriminate.
    + apply IH; destruct Hex as [Hb|(d & [<-|Hd] & Hdt)].
      * left; exact Hb.
      * contradiction.
      * right; exists d; split; assumption.
Qed.

Lemma putAll_open (cs : list (Checkpoint Id)) :
  forall st, closed st = false ->
             putAll cs st = inr (mkStore (rows st ++ cs) false).
Proof.
  induction cs as [|c cs IH]; intros st Hopen.
  - cbn [putAll]; rewrite app_nil_r; destruct st; simpl in *; subst; reflexivity.
  - cbn [putAll]; unfold put; rewrite Hopen.
    rewrite IH by reflexivity; cbn [rows].
    rewrite <- app_assoc; reflexivity.
Qed.

(** C8.  Let [cs] be checkpoints of one thread, put one after the other
    into an open store.  After each put, the [k]-th for every [k] from 1 to
    the length of [cs], all puts so far have succeeded and [getLatest] of
    the thread returns a checkpoint that is among those submitted so far
    (the rows the store already had and the first [k] of [cs]) and whose
    [checkpointId] is the greatest of the thread's. *)
Theorem getLatest_after_each_put (st0 : Store Id) (cs : list (Checkpoint Id)) (k : nat) :
  closed st0 = false ->
  (forall c, In c cs -> threadId c = tid) ->
  0 < k <= List.length cs ->
  exists st c,
    putAll (firstn k cs) st0 = inr st /\
    getLatest leb tid st = inr (Some c) /\
    greatestOf leb tid (rows st0 ++ firstn k cs) c.
Proof.
  intros Hopen Hthread Hk.
  pose proof (scanLatest_summarizes (rows st0 ++ firstn k cs) [] None) as Hsum.
  pose proof (scanLatest_found (rows st0 ++ firstn k cs) None) as Hfound.
  destruct (scanLatest leb tid None (rows st0 ++ firstn k cs)) as [c|] eqn:Hscan.
  - exists (mkStore (rows st0 ++ firstn k cs) false), c.
    split; [apply putAll_open; exact Hopen|].
    split; [unfold getLatest; cbn [closed rows]; rewrite Hscan; reflexivity|].
    apply Hsum; intros d [].
  - exfalso; apply Hfound; [|reflexivity].
    right.
    destruct cs as [|c0 cs']; [simpl in Hk; lia|].
    destruct k as [|k']; [lia|].
    exists c0; split.
    + apply in_or_app; right; left; reflexivity.
    + apply Hthread; left; reflexivity.
Qed.

End Latest.

Lemma getLatest_after_each_put_witness :
  exists st c,
    putAll (firstn 3 [cp 3; cp 1; cp 7; cp 5]) empty = inr st /\
    getLatest Nat.leb "t1" st = inr (Some c) /\
    greatestOf Nat.leb "t1" (rows empty ++ firstn 3 [cp 3; cp 1; cp 7; cp 5]) c.
Proof.
  apply (getLatest_after_each_put Nat.leb).
  - intros a b; rewrite !Nat.leb_le; lia.
  - intros a b c; rewrite !Nat.leb_le; lia.
  - reflexivity.
  - intros c [<-|[<-|[<-|[<-|[]]]]]; reflexivity.
  - simpl; lia.
Defined.

End CheckpointStoreFacts.

(** * Properties of sessions *)

(** ** Reading stores off a trace *)

Lemma constructed_app (l1 l2 : list Event) :
  constructed (l1 ++ l2) = constructed l1 ++ constructed l2.
Proof. apply flat_map_app. Qed.

Lemma initialized_app (l1 l2 : list Event) :
  initialized (l1 ++ l2) = initialized l1 ++ initialized l2.
Proof. apply flat_map_app. Qed.

Lemma closedStores_app (l1 l2 : list Event) :
  closedStores (l1 ++ l2) = closedStores l1 ++ closedStores l2.
Proof. apply flat_map_app. Qed.

Lemma constructed_calls (l : list Event) : constructed (calls l) = constructed l.
Proof.
  induction l as [|e l IH]; [reflexivity|].
  destruct e; simpl; rewrite ?IH; reflexivity.
Qed.

Lemma initialized_calls (l : list Event) : initialized (calls l) = initialized l.
Proof.
  induction l as [|e l IH]; [reflexivity|].
  destruct e; simpl; rewrite ?IH; reflexivity.
Qed.

Lemma closedStores_calls (l : list Event) : closedStores (calls l) = closedStores l.
Proof.
  induction l as [|e l IH]; [reflexivity|].
  destruct e; simpl; rewrite ?IH; reflexivity.
Qed.

Lemma quiet_of_calls (evs : list Event) : calls evs = [] -> quiet evs.
Proof.
  intros Hc; unfold quiet.
  rewrite <- constructed_calls, <- initialized_calls, <- closedStores_calls, Hc.
  split; [|split]; reflexivity.
Qed.

Lemma quiet_nil : quiet [].
Proof. split; [|split]; reflexivity. Qed.

(** ** What each operation does to the state *)

Section Frames.

Context {Agent : Type} (h : Host Agent).

(** A change that keeps the slot and the counter and adds quiet events
    keeps a state consistent. *)
Lemma consistent_frame (s s' : State) (evs : list Event) :
  checkpointer s' = checkpointer s ->
  allocated s' = allocated s ->
  trace s' = trace s ++ evs ->
  quiet evs ->
  consistent h s -> consistent h s'.
Proof.
  intros Hk Ha Ht (Hq1 & Hq2 & Hq3).
  unfold consistent; rewrite Hk, Ha, Ht.
  rewrite constructed_app, initialized_app, closedStores_app, Hq1, Hq2, Hq3, !app_nil_r.
  trivial.
Qed.

Lemma consistent_getCheckpointer (s : State) :
  consistent h s -> consistent h (snd (getCheckpointer h s)).
Proof.
  intros Hs; destruct (checkpointer s) as [c|] eqn:Hk.
  - rewrite (getCheckpointer_held h s c Hk); exact Hs.
  - rewrite (getCheckpointer_create h s Hk); cbn [snd].
    destruct Hs as (Hi & Hlt & Hnd & Hp & Hheld & Hrest).
    unfold consistent; cbn [trace allocated checkpointer].
    rewrite constructed_app, initialized_app, closedStores_app; cbn.
    rewrite app_nil_r.
    split; [rewrite Hi; reflexivity|].
    split.
    { apply Forall_app; split.
      - eapply Forall_impl; [|exact Hlt]; cbn; intros; lia.
      - constructor; [cbn; lia|constructor]. }
    split.
    { rewrite map_app; apply NoDup_app; [exact Hnd|repeat constructor; intros []|].
      intros r Hr [<-|[]]; cbn in Hr.
      apply in_map_iff in Hr; destruct Hr as (c & Hc & Hin).
      rewrite Forall_forall in Hlt; specialize (Hlt c Hin); lia. }
    split.
    { apply Forall_app; split; [exact Hp|constructor; [reflexivity|constructor]]. }
    split.
    { intros c Hc; injection Hc as <-; apply in_or_app; right; left; reflexivity. }
    intros c Hc; apply in_app_or in Hc; destruct Hc as [Hc|[<-|[]]].
    + destruct (Hrest c Hc) as [Habs|Hcl]; [rewrite Hk in Habs; discriminate Habs|].
      right; exact Hcl.
    + left; reflexivity.
Qed.

Lemma consistent_closeRuntime (s : State) :
  consistent h s -> consistent h (snd (closeRuntime h s)).
Proof.
  intros Hs; destruct (checkpointer s) as [c|] eqn:Hk.
  - rewrite (closeRuntime_held h s c Hk).
    destruct Hs as (Hi & Hlt & Hnd & Hp & Hheld & Hrest).
    assert (Hrest' : forall c0, In c0 (constructed (trace s)) ->
                                In c0 (closedStores (trace s) ++ [c]) \/
                                (checkpointer s = Some c0 /\ c0 <> c)).
    { intros c0 Hc0; destruct (Hrest c0 Hc0) as [Hh|Hcl].
      - left; rewrite Hk in Hh; injection Hh as <-.
        apply in_or_app; right; left; reflexivity.
      - left; apply in_or_app; left; exact Hcl. }
    destruct (close h c); cbn [snd]; unfold consistent;
      cbn [extend trace allocated checkpointer];
      rewrite constructed_app, initialized_app, closedStores_app; cbn;
      rewrite !app_nil_r.
    + repeat (split; [assumption|]).
      intros c0 Hc0; destruct (Hrest' c0 Hc0) as [Hcl|(Hh & _)];
        [right; exact Hcl|left; exact Hh].
    + repeat (split; [assumption|]).
      split; [intros c0 Hc0; discriminate Hc0|].
      intros c0 Hc0; destruct (Hrest' c0 Hc0) as [Hcl|(Hh & Hne)];
        [right; exact Hcl|].
      rewrite Hk in Hh; injection Hh as <-; contradiction.
  - rewrite (closeRuntime_idle h s Hk); exact Hs.
Qed.

(** [createAgentRuntime] leaves the state the checkpointer request left,
    with quiet events around it, or stops before that request. *)
Lemma createAgentRuntime_shape (options : Optional CreateAgentRuntimeOptions) (s : State) :
  exists evs1 evs2,
    calls evs1 = [] /\ quiet evs2 /\
    (snd (createAgentRuntime h options s) = extend s evs1 \/
     snd (createAgentRuntime h options s) =
       extend (snd (getCheckpointer h (extend s evs1))) evs2).
Proof.
  destruct (fst (getModelInstance h (modelId (optionsOrEmpty options)) s))
    as [model|e] eqn:Hm.
  - destruct (createAgentRuntime_to_checkpointer h options s model Hm)
      as (evs & Hcalls & Hrun).
    rewrite Hrun; clear Hrun.
    destruct (getCheckpointer h (extend s evs)) as [[saver|e] s1] eqn:Hg; cbn [snd].
    + eexists evs, _; split; [exact Hcalls|]; split;
        [|right; rewrite Hg; reflexivity].
      split; [|split]; reflexivity.
    + exists evs, []; split; [exact Hcalls|]; split; [exact quiet_nil|].
      right; rewrite Hg, extend_nil; reflexivity.
  - destruct (createAgentRuntime_model_throws h options s e Hm) as (evs & Hrun & Hcalls).
    exists evs, []; split; [exact Hcalls|]; split; [exact quiet_nil|].
    left; rewrite Hrun; reflexivity.
Qed.

Lemma consistent_extend (s : State) (evs : list Event) :
  quiet evs -> consistent h s -> consistent h (extend s evs).
Proof. intros Hq; apply (consistent_frame s (extend s evs) evs); trivial. Qed.

Lemma consistent_createAgentRuntime (options : Optional CreateAgentRuntimeOptions)
    (s : State) :
  consistent h s -> consistent h (snd (createAgentRuntime h options s)).
Proof.
  intros Hs.
  destruct (createAgentRuntime_shape options s) as (evs1 & evs2 & H1 & H2 & [Hr|Hr]);
    rewrite Hr.
  - apply consistent_extend; [apply quiet_of_calls; exact H1|exact Hs].
  - apply consistent_extend; [exact H2|].
    apply consistent_getCheckpointer, consistent_extend;
      [apply quiet_of_calls; exact H1|exact Hs].
Qed.

Lemma consistent_perform (c : Call) (s : State) :
  consistent h s -> consistent h (perform h c s).
Proof.
  destruct c as [p| | |options|]; cbn [perform].
  - apply (consistent_frame s _ [ConsoleLog [LStr "[Runtime] Workspace path set to:";
                                             LPath p]]);
      try reflexivity.
    split; [|split]; reflexivity.
  - trivial.
  - apply consistent_getCheckpointer.
  - apply consistent_createAgentRuntime.
  - apply consistent_closeRuntime.
Qed.

Lemma consistent_session (cs : list Call) :
  forall s, consistent h s -> consistent h (session h cs s).
Proof.
  induction cs as [|c cs IH]; intros s Hs; [exact Hs|].
  apply IH, consistent_perform, Hs.
Qed.

Lemma consistent_initialState : consistent h initialState.
Proof.
  unfold consistent; cbn.
  split; [reflexivity|].
  split; [constructor|].
  split; [constructor|].
  split; [constructor|].
  split; [intros c Hc; discriminate Hc|intros c []].
Qed.

(** The workspace path is only written by [setWorkspacePath]. *)
Lemma getCheckpointer_keeps_path (s : State) :
  globalWorkspacePath (snd (getCheckpointer h s)) = globalWorkspacePath s.
Proof.
  destruct (checkpointer s) as [c|] eqn:Hk.
  - rewrite (getCheckpointer_held h s c Hk); reflexivity.
  - rewrite (getCheckpointer_create h s Hk); reflexivity.
Qed.

Lemma closeRuntime_keeps_path (s : State) :
  globalWorkspacePath (snd (closeRuntime h s)) = globalWorkspacePath s.
Proof.
  destruct (checkpointer s) as [c|] eqn:Hk.
  - rewrite (closeRuntime_held h s c Hk); destruct (close h c); reflexivity.
  - rewrite (closeRuntime_idle h s Hk); reflexivity.
Qed.

Lemma createAgentRuntime_keeps_path (options : Optional CreateAgentRuntimeOptions)
    (s : State) :
  globalWorkspacePath (snd (createAgentRuntime h options s)) = globalWorkspacePath s.
Proof.
  destruct (createAgentRuntime_shape options s) as (evs1 & evs2 & _ & _ & [Hr|Hr]);
    rewrite Hr; cbn [extend globalWorkspacePath]; [reflexivity|].
  rewrite getCheckpointer_keeps_path; reflexivity.
Qed.

End Frames.

(** ** Invariants of every session *)

(** X1.  Whatever the exported functions are called with, in whatever
    order and whether the calls return or throw, the stores that had
    [initialize] called on them are exactly the stores constructed, in the
    same order, and no store is constructed twice: every store is
    initialized once, and nothing else ever is. *)
Theorem session_initializes_each_store_once {Agent : Type} (h : Host Agent)
    (cs : list Call) :
  let s := session h cs initialState in
  initialized (trace s) = constructed (trace s) /\
  NoDup (constructed (trace s)).
Proof.
  intros s.
  destruct (consistent_session h cs initialState (consistent_initialState h))
    as (Hi & _ & Hnd & _).
  split; [exact Hi|].
  exact (NoDup_map_inv saver_ref _ Hnd).
Qed.

(** X2.  In every session, a store the module has constructed is either
    the one in the singleton slot or one that [close] was called on: the
    module drops no store without closing it. *)
Theorem session_store_held_or_closed {Agent : Type} (h : Host Agent)
    (cs : list Call) (c : SqlJsSaver) :
  let s := session h cs initialState in
  In c (constructed (trace s)) ->
  checkpointer s = Some c \/ In c (closedStores (trace s)).
Proof.
  intros s Hc.
  destruct (consistent_session h cs initialState (consistent_initialState h))
    as (_ & _ & _ & _ & _ & Hrest).
  exact (Hrest c Hc).
Qed.

Lemma session_store_held_or_closed_witness :
  let s := session demoHost
             [DoGetCheckpointer; DoCloseRuntime; DoCreateAgentRuntime undefined]
             initialState in
  checkpointer s = Some (demoSaver 0) \/ In (demoSaver 0) (closedStores (trace s)).
Proof.
  cbv zeta.
  apply (session_store_held_or_closed demoHost
           [DoGetCheckpointer; DoCloseRuntime; DoCreateAgentRuntime undefined]
           (demoSaver 0)).
  vm_compute; left; reflexivity.
Defined.

(** X4.  In every session, every store constructed has the database path
    [join(app.getPath('userData'), 'langgraph.sqlite')]: neither the workspace
    path nor the options nor a reopening changes where the checkpoints go. *)
Theorem session_stores_at_dbPath {Agent : Type} (h : Host Agent) (cs : list Call) :
  let s := session h cs initialState in
  Forall (fun c => saver_dbPath c = join h (getPath h "userData") "langgraph.sqlite")
         (constructed (trace s)).
Proof.
  intros s.
  destruct (consistent_session h cs initialState (consistent_initialState h))
    as (_ & _ & _ & Hp & _).
  exact Hp.
Qed.

(** X5.  After any session, [getWorkspacePath] returns the argument of the
    last [setWorkspacePath] of the session, or the path the session started
    with when there was none: [getCheckpointer], [createAgentRuntime] (an
    options.workspacePath included) and [closeRuntime] never write the
    global path. *)
Theorem session_workspacePath {Agent : Type} (h : Host Agent) (cs : list Call)
    (s0 : State) :
  getWorkspacePath (session h cs s0) =
    (Ok (lastWorkspacePath cs (globalWorkspacePath s0)), session h cs s0).
Proof.
  unfold getWorkspacePath, gets.
  f_equal; f_equal.
  revert s0; induction cs as [|c cs IH]; intros s0; [reflexivity|].
  cbn [session lastWorkspacePath fold_left].
  change (fold_left (fun s c => perform h c s) cs (perform h c s0))
    with (session h cs (perform h c s0)).
  rewrite IH; unfold lastWorkspacePath; f_equal.
  destruct c as [p| | |options|]; cbn [perform].
  - reflexivity.
  - reflexivity.
  - apply getCheckpointer_keeps_path.
  - apply createAgentRuntime_keeps_path.
  - apply closeRuntime_keeps_path.
Qed.

Section ClosingHosts.

Context {Agent : Type} (h : Host Agent).

(** The stores of this host close without error. *)
Hypothesis close_resolves : forall c, close h c = None.

(** The stores constructed are those closed, then the one held. *)
Let balanced (s : State) : Prop :=
  constructed (trace s) = closedStores (trace s) ++ held s.

Lemma balanced_extend (s : State) (evs : list Event) :
  quiet evs -> balanced s -> balanced (extend s evs).
Proof.
  intros (Hq1 & _ & Hq3) Hb; unfold balanced, held in *; cbn [extend trace checkpointer].
  rewrite constructed_app, closedStores_app, Hq1, Hq3, !app_nil_r; exact Hb.
Qed.

Lemma balanced_getCheckpointer (s : State) :
  balanced s -> balanced (snd (getCheckpointer h s)).
Proof.
  intros Hb; destruct (checkpointer s) as [c|] eqn:Hk.
  - rewrite (getCheckpointer_held h s c Hk); exact Hb.
  - rewrite (getCheckpointer_create h s Hk); cbn [snd].
    unfold balanced, held in *; cbn [trace checkpointer]; rewrite Hk in Hb.
    rewrite constructed_app, closedStores_app, Hb; cbn.
    rewrite !app_nil_r; reflexivity.
Qed.

Lemma balanced_closeRuntime (s : State) :
  balanced s -> balanced (snd (closeRuntime h s)).
Proof.
  intros Hb; destruct (checkpointer s) as [c|] eqn:Hk.
  - rewrite (closeRuntime_held h s c Hk), close_resolves; cbn [snd].
    unfold balanced, held in *; cbn [trace checkpointer]; rewrite Hk in Hb.
    rewrite constructed_app, closedStores_app, Hb; cbn.
    rewrite !app_nil_r; reflexivity.
  - rewrite (closeRuntime_idle h s Hk); exact Hb.
Qed.

Lemma balanced_perform (c : Call) (s : State) :
  balanced s -> balanced (perform h c s).
Proof.
  destruct c as [p| | |options|]; cbn [perform]; intros Hb.
  - unfold balanced, held in *; cbn.
    rewrite constructed_app, closedStores_app; cbn; rewrite !app_nil_r; exact Hb.
  - exact Hb.
  - apply balanced_getCheckpointer, Hb.
  - destruct (createAgentRuntime_shape h options s)
      as (evs1 & evs2 & H1 & H2 & [Hr|Hr]); rewrite Hr.
    + apply balanced_extend; [apply quiet_of_calls; exact H1|exact Hb].
    + apply balanced_extend; [exact H2|].
      apply balanced_getCheckpointer, balanced_extend;
        [apply quiet_of_calls; exact H1|exact Hb].
  - apply balanced_closeRuntime, Hb.
Qed.

Lemma balanced_session (cs : list Call) :
  forall s, balanced s -> balanced (session h cs s).
Proof.
  induction cs as [|c cs IH]; intros s Hb; [exact Hb|].
  apply IH, balanced_perform, Hb.
Qed.

End ClosingHosts.

(** X3.  On a host whose stores close without error, at every point of
    every session the stores constructed so far are, in order, the stores
    closed so far followed by the store in the slot if there is one: each
    store is closed at most once, in the order of construction, a new store
    is only constructed after the one before was closed, and at most one
    store is open. *)
Theorem session_one_live_store {Agent : Type} (h : Host Agent) (cs : list Call) :
  (forall c, close h c = None) ->
  let s := session h cs initialState in
  constructed (trace s) = closedStores (trace s) ++ held s.
Proof.
  intros Hclose s.
  apply (balanced_session h Hclose cs initialState); reflexivity.
Qed.

Lemma session_one_live_store_witness :
  let s := session demoHost
             [DoCreateAgentRuntime undefined; DoCloseRuntime; DoCloseRuntime;
              DoSetWorkspacePath (Some "/w"); DoGetCheckpointer;
              DoCreateAgentRuntime undefined]
             initialState in
  constructed (trace s) = [demoSaver 0; demoSaver 1] /\
  closedStores (trace s) = [demoSaver 0] /\
  held s = [demoSaver 1] /\
  constructed (trace s) = closedStores (trace s) ++ held s.
Proof.
  cbv zeta.
  split; [reflexivity|]; split; [reflexivity|]; split; [reflexivity|].
  apply (session_one_live_store demoHost); reflexivity.
Defined.

(** ** Failure paths and compositions *)

Section Compositions.

Context {Agent : Type} (h : Host Agent).

(** Console output before the request does not change what
    [getCheckpointer] answers. *)
Lemma getCheckpointer_extend_result (s : State) (evs : list Event) :
  fst (getCheckpointer h (extend s evs)) = fst (getCheckpointer h s).
Proof.
  rewrite getCheckpointer_extend.
  destruct (checkpointer s) as [c|] eqn:Hk.
  - rewrite (getCheckpointer_held h s c Hk); reflexivity.
  - rewrite (getCheckpointer_create h s Hk); reflexivity.
Qed.

(** Once the model is selected, the slot is as [getCheckpointer] leaves
    it, whether the store opened or not. *)
Lemma createAgentRuntime_slot (options : Optional CreateAgentRuntimeOptions)
    (s : State) (model : ModelInstance) :
  fst (getModelInstance h (modelId (optionsOrEmpty options)) s) = Ok model ->
  checkpointer (snd (createAgentRuntime h options s)) =
    checkpointer (snd (getCheckpointer h s)).
Proof.
  intros Hm.
  destruct (createAgentRuntime_to_checkpointer h options s model Hm)
    as (evs & _ & Hrun).
  rewrite Hrun, getCheckpointer_extend.
  destruct (checkpointer s) as [c|] eqn:Hk.
  - rewrite (getCheckpointer_held h s c Hk); reflexivity.
  - rewrite (getCheckpointer_create h s Hk); cbv zeta.
    destruct (initialize h _); reflexivity.
Qed.

(** The last thing a successful [createAgentRuntime] does is to report the
    storage mode on the console. *)
Lemma createAgentRuntime_last_event (options : Optional CreateAgentRuntimeOptions)
    (s : State) (model : ModelInstance) (saver : SqlJsSaver) :
  fst (getModelInstance h (modelId (optionsOrEmpty options)) s) = Ok model ->
  fst (getCheckpointer h s) = Ok saver ->
  exists tr,
    trace (snd (createAgentRuntime h options s)) =
      tr ++ [ConsoleLog
               [LStr "[Runtime] Deep agent created with";
                LStr (if truthy_opt (selectSyncPath (workspacePath (optionsOrEmpty options))
                                                    (globalWorkspacePath s))
                      then "disk sync" else "state-only storage")]].
Proof.
  intros Hm Hc.
  destruct (createAgentRuntime_to_checkpointer h options s model Hm)
    as (evs & _ & Hrun).
  rewrite Hrun; clear Hrun.
  pose proof (getCheckpointer_extend_result s evs) as Hres.
  pose proof (getCheckpointer_keeps_path h (extend s evs)) as Hpath.
  destruct (getCheckpointer h (extend s evs)) as [[sv|e] s1];
    cbn [fst snd] in *; [|rewrite Hc in Hres; discriminate Hres].
  cbn [extend globalWorkspacePath] in Hpath; rewrite Hpath.
  cbn [extend trace].
  eexists (trace s1 ++ [_; _; _; _]).
  rewrite <- app_assoc; reflexivity.
Qed.

End Compositions.

(** X6.  When [close] rejects, [closeRuntime] rejects with that error and
    the store stays in the slot: a [getCheckpointer] after it returns that
    same store without constructing or initializing anything, and another
    [closeRuntime] calls [close] on it again. *)
Theorem closeRuntime_rejected {Agent : Type} (h : Host Agent) (s : State)
    (c : SqlJsSaver) (e : JsError) :
  checkpointer s = Some c ->
  close h c = Some e ->
  let s1 := snd (closeRuntime h s) in
  fst (closeRuntime h s) = Throw e /\
  s1 = extend s [SaverClose c] /\
  getCheckpointer h s1 = (Ok c, s1) /\
  closeRuntime h s1 = (Throw e, extend s [SaverClose c; SaverClose c]).
Proof.
  intros Hk He s1; unfold s1; clear s1.
  rewrite (closeRuntime_held h s c Hk), He; cbn [fst snd].
  split; [reflexivity|]; split; [reflexivity|]; split.
  - apply getCheckpointer_held; exact Hk.
  - rewrite (closeRuntime_held h (extend s [SaverClose c]) c Hk), He.
    rewrite extend_extend; reflexivity.
Qed.

Lemma closeRuntime_rejected_witness :
  let s := snd (getCheckpointer stuckHost initialState) in
  let s1 := snd (closeRuntime stuckHost s) in
  fst (closeRuntime stuckHost s) =
    Throw (mkJsError "StorageIOError" "database is locked") /\
  s1 = extend s [SaverClose (demoSaver 0)] /\
  getCheckpointer stuckHost s1 = (Ok (demoSaver 0), s1) /\
  closeRuntime stuckHost s1 =
    (Throw (mkJsError "StorageIOError" "database is locked"),
     extend s [SaverClose (demoSaver 0); SaverClose (demoSaver 0)]).
Proof.
  cbv zeta.
  apply (closeRuntime_rejected stuckHost (snd (getCheckpointer stuckHost initialState))
           (demoSaver 0) (mkJsError "StorageIOError" "database is locked"));
    reflexivity.
Defined.

(** X7.  When the slot is empty and the new store's [initialize] rejects,
    [createAgentRuntime] rejects with that error but leaves the store in the
    slot; the same call made again succeeds and gives [createDeepAgent] that
    store, on which [initialize] is not called a second time. *)
Theorem createAgentRuntime_after_failed_initialize {Agent : Type} (h : Host Agent)
    (options : Optional CreateAgentRuntimeOptions) (s : State)
    (model : ModelInstance) (e : JsError) :
  let o := optionsOrEmpty options in
  let c := mkSaver (allocated s) (join h (getPath h "userData") "langgraph.sqlite") in
  let r1 := createAgentRuntime h options s in
  let r2 := createAgentRuntime h options (snd r1) in
  checkpointer s = None ->
  fst (getModelInstance h (modelId o) s) = Ok model ->
  initialize h c = Some e ->
  fst r1 = Throw e /\
  checkpointer (snd r1) = Some c /\
  fst r2 = Ok (createDeepAgent h
                 (mkParams model c
                    (mkFactory (selectSyncPath (workspacePath o)
                                               (globalWorkspacePath s))))) /\
  initialized (trace (snd r2)) = initialized (trace s) ++ [c].
Proof.
  intros o c r1 r2 Hk Hm Hi.
  pose proof (getCheckpointer_create h s Hk) as Hg.
  cbv beta zeta in Hg; change (mkSaver (allocated s) (dbPath h)) with c in Hg.
  rewrite Hi in Hg.
  assert (Hc : fst (getCheckpointer h s) = Throw e) by (rewrite Hg; reflexivity).
  destruct (createAgentRuntime_store_throws h options s model e Hm Hc) as (Hr1 & Ht1).
  fold r1 in Hr1, Ht1.
  assert (Hslot : checkpointer (snd r1) = Some c).
  { unfold r1; rewrite (createAgentRuntime_slot h options s model Hm), Hg; reflexivity. }
  assert (Hm2 : fst (getModelInstance h (modelId o) (snd r1)) = Ok model).
  { rewrite (getModelInstance_result h (modelId o) (snd r1) s); exact Hm. }
  assert (Hc2 : fst (getCheckpointer h (snd r1)) = Ok c).
  { rewrite (getCheckpointer_held h (snd r1) c Hslot); reflexivity. }
  destruct (createAgentRuntime_ok h options (snd r1) model c Hm2 Hc2)
    as (Hr2 & _ & _ & Ht2).
  fold r2 in Hr2, Ht2.
  unfold r1 in Hr2 at 1; rewrite createAgentRuntime_keeps_path in Hr2.
  split; [exact Hr1|]; split; [exact Hslot|]; split; [exact Hr2|].
  rewrite (getCheckpointer_held h (snd r1) c Hslot) in Ht2; cbn [snd] in Ht2.
  rewrite <- initialized_calls, Ht2, initialized_app, initialized_calls.
  rewrite <- initialized_calls, Ht1, initialized_calls, Hg; cbn [snd trace].
  rewrite initialized_app; cbn; rewrite app_nil_r; reflexivity.
Qed.

Lemma createAgentRuntime_after_failed_initialize_witness :
  let c := mkSaver 0 "/readonly/langgraph.sqlite" in
  let r1 := createAgentRuntime brokenHost undefined initialState in
  let r2 := createAgentRuntime brokenHost undefined (snd r1) in
  fst r1 = Throw (mkJsError "StorageInitError" "unwritable location") /\
  checkpointer (snd r1) = Some c /\
  fst r2 = Ok (mkParams (ChatOpenAI "gpt-4o" (Some "sk-demo")) c (mkFactory None)) /\
  initialized (trace (snd r2)) = [c].
Proof.
  exact (createAgentRuntime_after_failed_initialize brokenHost undefined initialState
           (ChatOpenAI "gpt-4o" (Some "sk-demo"))
           (mkJsError "StorageInitError" "unwritable location")
           eq_refl eq_refl eq_refl).
Defined.

(** X8.  Two runtimes created one after the other, with any options for
    which the model is selected, are given the same store: the second
    [createAgentRuntime] constructs and initializes nothing, while each call
    has its own backend factory. *)
Theorem createAgentRuntime_shares_checkpointer {Agent : Type} (h : Host Agent)
    (options1 options2 : Optional CreateAgentRuntimeOptions) (s : State)
    (model1 model2 : ModelInstance) (c : SqlJsSaver) :
  let o1 := optionsOrEmpty options1 in
  let o2 := optionsOrEmpty options2 in
  let r1 := createAgentRuntime h options1 s in
  let r2 := createAgentRuntime h options2 (snd r1) in
  fst (getModelInstance h (modelId o1) s) = Ok model1 ->
  fst (getModelInstance h (modelId o2) s) = Ok model2 ->
  fst (getCheckpointer h s) = Ok c ->
  fst r1 = Ok (createDeepAgent h
                 (mkParams model1 c
                    (mkFactory (selectSyncPath (workspacePath o1)
                                               (globalWorkspacePath s))))) /\
  fst r2 = Ok (createDeepAgent h
                 (mkParams model2 c
                    (mkFactory (selectSyncPath (workspacePath o2)
                                               (globalWorkspacePath s))))) /\
  constructed (trace (snd r2)) = constructed (trace (snd (getCheckpointer h s))) /\
  initialized (trace (snd r2)) = initialized (trace (snd (getCheckpointer h s))).
Proof.
  intros o1 o2 r1 r2 Hm1 Hm2 Hc.
  destruct (createAgentRuntime_ok h options1 s model1 c Hm1 Hc)
    as (Hr1 & Hslot & Hpath & Ht1).
  fold r1 in Hr1, Hslot, Hpath, Ht1.
  assert (Hm2' : fst (getModelInstance h (modelId o2) (snd r1)) = Ok model2).
  { rewrite (getModelInstance_result h (modelId o2) (snd r1) s); exact Hm2. }
  assert (Hc2 : fst (getCheckpointer h (snd r1)) = Ok c).
  { rewrite (getCheckpointer_held h (snd r1) c Hslot); reflexivity. }
  destruct (createAgentRuntime_ok h options2 (snd r1) model2 c Hm2' Hc2)
    as (Hr2 & _ & _ & Ht2).
  fold r2 in Hr2, Ht2.
  rewrite Hpath in Hr2.
  rewrite (getCheckpointer_held h (snd r1) c Hslot) in Ht2; cbn [snd] in Ht2.
  split; [exact Hr1|]; split; [exact Hr2|]; split.
  - rewrite <- constructed_calls, Ht2, Ht1, !constructed_app, constructed_calls.
    cbn; rewrite !app_nil_r; reflexivity.
  - rewrite <- initialized_calls, Ht2, Ht1, !initialized_app, initialized_calls.
    cbn; rewrite !app_nil_r; reflexivity.
Qed.

Lemma createAgentRuntime_shares_checkpointer_witness :
  let r1 := createAgentRuntime demoHost
              (defined (mkOptions undefined (defined (Some "/a")))) initialState in
  let r2 := createAgentRuntime demoHost
              (defined (mkOptions (defined "mistral-large") undefined)) (snd r1) in
  fst r1 = Ok (mkParams (ChatAnthropic "claude-sonnet-4-5" (Some "sk-ant-demo"))
                        (demoSaver 0) (mkFactory (Some "/a"))) /\
  fst r2 = Ok (mkParams (ModelName "mistral-large") (demoSaver 0) (mkFactory None)) /\
  constructed (trace (snd r2)) = [demoSaver 0] /\
  initialized (trace (snd r2)) = [demoSaver 0].
Proof.
  exact (createAgentRuntime_shares_checkpointer demoHost
           (defined (mkOptions undefined (defined (Some "/a"))))
           (defined (mkOptions (defined "mistral-large") undefined))
           initialState
           (ChatAnthropic "claude-sonnet-4-5" (Some "sk-ant-demo"))
           (ModelName "mistral-large") (demoSaver 0) eq_refl eq_refl eq_refl).
Defined.

(** X9.  A string given as options.workspacePath, the empty string
    included, is the path [createSyncedBackendFactory] receives, whatever
    the global path is; the closing console line says 'disk sync' unless
    the string is empty.  The override holds for that call only: the global
    path is as before, and a following call without options.workspacePath
    gives the factory the global path. *)
Theorem createAgentRuntime_workspacePath_override {Agent : Type} (h : Host Agent)
    (mid : Optional string) (q : string) (s : State)
    (model : ModelInstance) (saver : SqlJsSaver) :
  let r1 := createAgentRuntime h (defined (mkOptions mid (defined (Some q)))) s in
  let r2 := createAgentRuntime h (defined (mkOptions mid undefined)) (snd r1) in
  fst (getModelInstance h mid s) = Ok model ->
  fst (getCheckpointer h s) = Ok saver ->
  fst r1 = Ok (createDeepAgent h (mkParams model saver (mkFactory (Some q)))) /\
  (exists tr,
     trace (snd r1) =
       tr ++ [ConsoleLog [LStr "[Runtime] Deep agent created with";
                          LStr (if truthy q then "disk sync" else "state-only storage")]]) /\
  getWorkspacePath (snd r1) = (Ok (globalWorkspacePath s), snd r1) /\
  fst r2 = Ok (createDeepAgent h
                 (mkParams model saver (mkFactory (globalWorkspacePath s)))).
Proof.
  intros r1 r2 Hm Hc.
  destruct (createAgentRuntime_ok h (defined (mkOptions mid (defined (Some q)))) s
              model saver Hm Hc) as (Hr1 & Hslot & Hpath & _).
  fold r1 in Hr1, Hslot, Hpath.
  split; [exact Hr1|]; split.
  { exact (createAgentRuntime_last_event h (defined (mkOptions mid (defined (Some q)))) s
             model saver Hm Hc). }
  split.
  { unfold getWorkspacePath, gets; rewrite Hpath; reflexivity. }
  assert (Hm2 : fst (getModelInstance h mid (snd r1)) = Ok model).
  { rewrite (getModelInstance_result h mid (snd r1) s); exact Hm. }
  assert (Hc2 : fst (getCheckpointer h (snd r1)) = Ok saver).
  { rewrite (getCheckpointer_held h (snd r1) saver Hslot); reflexivity. }
  destruct (createAgentRuntime_ok h (defined (mkOptions mid undefined)) (snd r1)
              model saver Hm2 Hc2) as (Hr2 & _).
  cbn [optionsOrEmpty workspacePath selectSyncPath] in Hr2.
  rewrite Hpath in Hr2; exact Hr2.
Qed.

Lemma createAgentRuntime_workspacePath_override_witness :
  let s := snd (setWorkspacePath (Some "/home/ada/project") initialState) in
  let model := ChatAnthropic "claude-sonnet-4-5" (Some "sk-ant-demo") in
  let r1 := createAgentRuntime demoHost (defined (mkOptions undefined (defined (Some "")))) s in
  let r2 := createAgentRuntime demoHost (defined (mkOptions undefined undefined)) (snd r1) in
  fst r1 = Ok (mkParams model (demoSaver 0) (mkFactory (Some ""))) /\
  (exists tr,
     trace (snd r1) =
       tr ++ [ConsoleLog [LStr "[Runtime] Deep agent created with";
                          LStr "state-only storage"]]) /\
  getWorkspacePath (snd r1) = (Ok (Some "/home/ada/project"), snd r1) /\
  fst r2 = Ok (mkParams model (demoSaver 0) (mkFactory (Some "/home/ada/project"))).
Proof.
  exact (createAgentRuntime_workspacePath_override demoHost undefined ""
           (snd (setWorkspacePath (Some "/home/ada/project") initialState))
           (ChatAnthropic "claude-sonnet-4-5" (Some "sk-ant-demo")) (demoSaver 0)
           eq_refl eq_refl).
Defined.

(** X10.  After any call of [getCheckpointer], resolved or rejected, the
    slot holds a store, and calling [getCheckpointer] again returns that
    store and changes nothing; a store the first call returned is that
    one. *)
Theorem getCheckpointer_idempotent {Agent : Type} (h : Host Agent) (s : State) :
  let s1 := snd (getCheckpointer h s) in
  exists c,
    checkpointer s1 = Some c /\
    getCheckpointer h s1 = (Ok c, s1) /\
    match fst (getCheckpointer h s) with
    | Ok c' => c' = c
    | Throw _ => checkpointer s = None
    end.
Proof.
  intros s1; unfold s1; clear s1.
  destruct (checkpointer s) as [c|] eqn:Hk.
  - rewrite (getCheckpointer_held h s c Hk); cbn [fst snd].
    exists c; split; [exact Hk|]; split; [|reflexivity].
    apply getCheckpointer_held; exact Hk.
  - rewrite (getCheckpointer_create h s Hk); cbn [fst snd].
    eexists; split; [reflexivity|]; split.
    + apply getCheckpointer_held; reflexivity.
    + destruct (initialize h _); reflexivity.
Qed.

(** X11.  [getModelInstance] answers the same in every state, and leaves
    the checkpointer slot, the workspace path and the allocation counter as
    they were: it constructs no store and calls no collaborator that is
    recorded, it only writes to the console. *)
Theorem getModelInstance_frame {Agent : Type} (h : Host Agent)
    (modelId : Optional string) (s s' : State) :
  let run := getModelInstance h modelId s in
  fst run = fst (getModelInstance h modelId s') /\
  checkpointer (snd run) = checkpointer s /\
  globalWorkspacePath (snd run) = globalWorkspacePath s /\
  allocated (snd run) = allocated s /\
  calls (trace (snd run)) = calls (trace s).
Proof.
  intros run; unfold run; clear run.
  destruct (getModelInstance_run h modelId) as (r & evs & Hrun & Hcalls).
  rewrite !Hrun; cbn [fst snd extend checkpointer globalWorkspacePath allocated trace].
  split; [reflexivity|]; split; [reflexivity|]; split; [reflexivity|];
    split; [reflexivity|].
  rewrite calls_app, Hcalls, app_nil_r; reflexivity.
Qed.

(** X12.  An absent model id and an empty one both make
    [getModelInstance] behave exactly as if the default model had been
    passed. *)
Theorem getModelInstance_default_model {Agent : Type} (h : Host Agent) (s : State) :
  getModelInstance h undefined s = getModelInstance h (defined (getDefaultModel h)) s /\
  getModelInstance h (defined "") s = getModelInstance h (defined (getDefaultModel h)) s.
Proof.
  assert (He : effectiveModel h (defined (getDefaultModel h)) = getDefaultModel h).
  { unfold effectiveModel; destruct (truthy (getDefaultModel h)); reflexivity. }
  unfold getModelInstance; rewrite He; split; reflexivity.
Qed.

(** X13.  A provider's branch reads that provider's key and no other: two
    hosts with the same model id in force give the same run for a 'claude'
    id when their Anthropic keys agree, for a 'gpt' id when their OpenAI keys
    agree, and for every other id whatever their keys are. *)
Theorem getModelInstance_key_isolation {A1 A2 : Type} (h1 : Host A1) (h2 : Host A2)
    (modelId : Optional string) (s : State) :
  effectiveModel h1 modelId = effectiveModel h2 modelId ->
  let model := effectiveModel h1 modelId in
  (startsWith model "claude" = true ->
   getApiKey h1 "anthropic" = getApiKey h2 "anthropic" ->
   getModelInstance h1 modelId s = getModelInstance h2 modelId s) /\
  (startsWith model "gpt" = true ->
   getApiKey h1 "openai" = getApiKey h2 "openai" ->
   getModelInstance h1 modelId s = getModelInstance h2 modelId s) /\
  (startsWith model "claude" = false ->
   startsWith model "gpt" = false ->
   getModelInstance h1 modelId s = getModelInstance h2 modelId s).
Proof.
  intros He model; unfold model; clear model.
  unfold getModelInstance; rewrite <- He.
  split; [|split].
  - intros Hc Hkey; rewrite Hc, Hkey; reflexivity.
  - intros Hg Hkey.
    destruct (startsWith (effectiveModel h1 modelId) "claude") eqn:Hc.
    + unfold startsWith in *.
      destruct (effectiveModel h1 modelId) as [|b m]; [discriminate Hg|].
      apply prefix_head in Hg; apply prefix_head in Hc.
      rewrite <- Hg in Hc; discriminate Hc.
    + rewrite Hg, Hkey; reflexivity.
  - intros Hc Hg; rewrite Hc, Hg; reflexivity.
Qed.

Lemma getModelInstance_key_isolation_witness :
  getModelInstance demoHost (defined "claude-opus-4") initialState =
    getModelInstance stuckHost (defined "claude-opus-4") initialState /\
  getModelInstance demoHost (defined "mistral-large") initialState =
    getModelInstance brokenHost (defined "mistral-large") initialState.
Proof.
  split.
  - exact (proj1 (getModelInstance_key_isolation demoHost stuckHost
                    (defined "claude-opus-4") initialState eq_refl) eq_refl eq_refl).
  - exact (proj2 (proj2 (getModelInstance_key_isolation demoHost brokenHost
                           (defined "mistral-large") initialState eq_refl))
             eq_refl eq_refl).
Defined.
